(** * Slide discovery and navigation assembly of [slide_generator.py]

    A shallow embedding of the slide-deck generator
    ([src/prefect/claude4/slide_generator.py]) and the proofs of the
    properties its specification states about slide discovery,
    section classification, sidebar grouping, the generate-navigation
    command and the create-slide command.  The later sections prove
    further properties of the same code: the round trip from
    [create_slide] to discovery, the shape of the sidebar, the section
    dictionaries, the lines discovery echoes, what a run of
    [generate_navigation] writes and what it leaves alone, the seeding
    of samples, the characters of generated names, the slide body taken
    by the PDF export, and the JSON strings of the page.

    Conventions of the model.

    - Text is [string]: a list of 8-bit characters read as code points.
      On code points below 128 every text primitive below agrees with
      Python's [str] method of the same name.  Code points 128..255 are
      carried as opaque symbols: they are not decimal digits, not white
      space and have no case.
    - A directory is its [os.listdir] listing, in the order the system
      returns it, together with the result of opening and reading each
      name ([None] when [open]/[read] raises).
    - Commands thread a [World]: the slide directory and the trace of
      everything echoed or written.  A command ends in [Returned] or in
      [Raised] with the Python exception that leaves the function.
      A path given with [--output] is taken to lie outside the slide
      directory: writing to it is recorded in the trace and leaves the
      directory as it is.
    - Literal text of the page templates that no interpolated value
      depends on (the style sheet, the pager script) is a parameter of
      the development: the theorems hold whatever that text is. *)

From Stdlib Require Import Bool Arith List Ascii String ZArith NArith Lia.
From Stdlib Require Import Permutation Sorted.
Import ListNotations.

Local Open Scope list_scope.
Local Open Scope string_scope.
Local Open Scope Z_scope.

(* ================================================================== *)
(** * Python text primitives *)
(* ================================================================== *)

Module PyStr.

(** The line feed and the double quote. *)
Definition LF : ascii := "010"%char.
Definition DQ : ascii := "034"%char.

(** [c in '0123456789']: what [\d] and [int] accept below 128. *)
Definition is_digit (c : ascii) : bool :=
  let n := nat_of_ascii c in (48 <=? n)%nat && (n <=? 57)%nat.

(** [str.isspace] on one code point: tab, line feed, vertical tab, form
    feed, carriage return, the separators 28..31, and the space. *)
Definition is_space (c : ascii) : bool :=
  let n := nat_of_ascii c in
  ((9 <=? n)%nat && (n <=? 13)%nat) || ((28 <=? n)%nat && (n <=? 32)%nat).

Definition is_upper (c : ascii) : bool :=
  let n := nat_of_ascii c in (65 <=? n)%nat && (n <=? 90)%nat.

Definition is_lower (c : ascii) : bool :=
  let n := nat_of_ascii c in (97 <=? n)%nat && (n <=? 122)%nat.

Definition is_cased (c : ascii) : bool := is_upper c || is_lower c.

Definition lower_char (c : ascii) : ascii :=
  if is_upper c then ascii_of_nat (nat_of_ascii c + 32) else c.

Definition upper_char (c : ascii) : ascii :=
  if is_lower c then ascii_of_nat (nat_of_ascii c - 32) else c.

(** The value of a decimal digit. *)
Definition digit_val (c : ascii) : Z := Z.of_nat (nat_of_ascii c - 48).

Definition digit_char (d : N) : ascii := ascii_of_N (48 + d).

Fixpoint map_chars (f : ascii -> ascii) (s : string) : string :=
  match s with
  | EmptyString => EmptyString
  | String c r => String (f c) (map_chars f r)
  end.

Fixpoint forall_chars (p : ascii -> bool) (s : string) : bool :=
  match s with
  | EmptyString => true
  | String c r => p c && forall_chars p r
  end.

(** [s.lower()] *)
Definition lower (s : string) : string := map_chars lower_char s.

(** [s.title()]: a cased character is upper-cased when the character
    before it is not cased, lower-cased otherwise. *)
Fixpoint title_from (prev_cased : bool) (s : string) : string :=
  match s with
  | EmptyString => EmptyString
  | String c r =>
      String (if prev_cased then lower_char c else upper_char c)
             (title_from (is_cased c) r)
  end.

Definition title (s : string) : string := title_from false s.

(** [s.endswith(suf)]: some tail of [s] is [suf]. *)
Fixpoint endswith (s suf : string) : bool :=
  (s =? suf)%string ||
  match s with
  | EmptyString => false
  | String _ r => endswith r suf
  end.

(** [sub in s]: [sub] starts at some position of [s]. *)
Fixpoint contains (sub s : string) : bool :=
  String.prefix sub s ||
  match s with
  | EmptyString => false
  | String _ r => contains sub r
  end.

(** [s.replace(old, new)] for a non-empty [old]: scan from the left; at
    an occurrence of [old] emit [new] and skip the occurrence.  [skip]
    counts the characters of the current occurrence still to drop. *)
Fixpoint replace_from (skip : nat) (old new s : string) : string :=
  match s with
  | EmptyString => EmptyString
  | String c r =>
      match skip with
      | S k => replace_from k old new r
      | O =>
          if String.prefix old s
          then new ++ replace_from (String.length old - 1) old new r
          else String c (replace_from O old new r)
      end
  end.

(** With an empty [old] Python puts [new] before every character and at
    the end. *)
Fixpoint intersperse (new s : string) : string :=
  match s with
  | EmptyString => new
  | String c r => new ++ String c (intersperse new r)
  end.

Definition replace (old new s : string) : string :=
  match old with
  | EmptyString => intersperse new s
  | _ => replace_from O old new s
  end.

(** The white space [int] skips around its argument: tab, line feed,
    vertical tab, form feed, carriage return and the space (the
    separators 28..31 are white space for [str.isspace] and [\s], not
    for [int]). *)
Definition is_int_space (c : ascii) : bool :=
  let n := nat_of_ascii c in
  ((9 <=? n)%nat && (n <=? 13)%nat) || (n =? 32)%nat.

Fixpoint lstrip (p : ascii -> bool) (s : string) : string :=
  match s with
  | EmptyString => EmptyString
  | String c r => if p c then lstrip p r else s
  end.

Fixpoint rstrip (p : ascii -> bool) (s : string) : string :=
  match s with
  | EmptyString => EmptyString
  | String c r =>
      match rstrip p r with
      | EmptyString => if p c then EmptyString else String c EmptyString
      | r' => String c r'
      end
  end.

Definition strip (p : ascii -> bool) (s : string) : string :=
  lstrip p (rstrip p s).

(** The digits of [int(s)]: at least one digit, single underscores
    allowed between digits only. *)
Fixpoint parse_digits (acc : Z) (prev_digit : bool) (s : string) : option Z :=
  match s with
  | EmptyString => if prev_digit then Some acc else None
  | String c r =>
      if is_digit c then parse_digits (10 * acc + digit_val c) true r
      else if (c =? "_")%char
           then (if prev_digit then parse_digits acc false r else None)
           else None
  end.

(** [int(s)] on a [str], base 10: surrounding white space is dropped,
    one sign is allowed; [None] stands for [ValueError].  (The
    interpreter's configurable cap on the number of digits is not
    modelled.) *)
Definition int (s : string) : option Z :=
  match strip is_int_space s with
  | String "-" r => option_map Z.opp (parse_digits 0 false r)
  | String "+" r => parse_digits 0 false r
  | t => parse_digits 0 false t
  end.

(** [str(n)] for a natural number, most significant digit first. *)
Fixpoint dec_fuel (fuel : nat) (n : N) : string :=
  match fuel with
  | O => EmptyString
  | S f =>
      let d := String (digit_char (n mod 10)) EmptyString in
      if (n / 10 =? 0)%N then d else dec_fuel f (n / 10) ++ d
  end.

Definition dec (n : N) : string := dec_fuel (S (N.size_nat n)) n.

(** [str(z)] *)
Definition str_of_Z (z : Z) : string :=
  if z <? 0 then String "-" (dec (Z.to_N (- z))) else dec (Z.to_N z).

Fixpoint zeros (k : nat) : string :=
  match k with
  | O => EmptyString
  | S k' => String "0" (zeros k')
  end.

(** [f"{z:03d}"]: zero padding to width three, the sign counted in the
    width and written before the zeros. *)
Definition format_03d (z : Z) : string :=
  if z <? 0
  then let ds := dec (Z.to_N (- z)) in
       String "-" (zeros (2 - String.length ds) ++ ds)
  else let ds := dec (Z.to_N z) in
       zeros (3 - String.length ds) ++ ds.

(** [sep.join(l)] is [String.concat sep l]. *)
Definition join (sep : string) (l : list string) : string :=
  String.concat sep l.

End PyStr.

(* ================================================================== *)
(** * The fragment of [re] the program uses *)
(* ================================================================== *)

Module Re.

(** Patterns.  Repetition is needed over single-character classes
    only; groups are never nested, so the groups of a match are listed
    in the order they close, which is the order Python numbers them. *)
Inductive regex : Type :=
| Chr (c : ascii)                          (* a literal character *)
| Cls (p : ascii -> bool)                  (* [\d], [\s], [.] *)
| Seq (r1 r2 : regex)
| Star (greedy : bool) (p : ascii -> bool) (* [p*] and [p*?] *)
| Group (r : regex)                        (* [( ... )] *)
| Bol                                      (* [^] *)
| Eol                                      (* [$] *)
| Eps.                                     (* the empty pattern *)

(** [.] without DOTALL: anything but a line feed. *)
Definition dot (c : ascii) : bool := negb (c =? PyStr.LF)%char.

(** A literal word. *)
Fixpoint lit (s : string) : regex :=
  match s with
  | EmptyString => Eps
  | String c r => Seq (Chr c) (lit r)
  end.

Section Matcher.

Context {R : Type}.

(** A continuation receives the position reached, the text left and the
    groups closed so far. *)
Definition cont : Type := nat -> string -> list string -> option R.

(** [p*]: take as many characters as possible, give back one at a time. *)
Fixpoint star_greedy (p : ascii -> bool) (pos : nat) (s : string)
    (caps : list string) (k : cont) : option R :=
  match s with
  | String c r =>
      if p c
      then match star_greedy p (S pos) r caps k with
           | Some x => Some x
           | None => k pos s caps
           end
      else k pos s caps
  | EmptyString => k pos s caps
  end.

(** [p*?]: take as few characters as possible, add one at a time. *)
Fixpoint star_lazy (p : ascii -> bool) (pos : nat) (s : string)
    (caps : list string) (k : cont) : option R :=
  match k pos s caps with
  | Some x => Some x
  | None =>
      match s with
      | String c r => if p c then star_lazy p (S pos) r caps k else None
      | EmptyString => None
      end
  end.

(** The backtracking matcher: the first success in Python's order of
    preference.  [$] holds at the end of the text and just before a
    line feed that ends it. *)
Fixpoint run (r : regex) (pos : nat) (s : string) (caps : list string)
    (k : cont) : option R :=
  match r with
  | Chr c =>
      match s with
      | String a t => if (a =? c)%char then k (S pos) t caps else None
      | EmptyString => None
      end
  | Cls p =>
      match s with
      | String a t => if p a then k (S pos) t caps else None
      | EmptyString => None
      end
  | Seq r1 r2 =>
      run r1 pos s caps (fun pos' s' caps' => run r2 pos' s' caps' k)
  | Star true p => star_greedy p pos s caps k
  | Star false p => star_lazy p pos s caps k
  | Group r1 =>
      run r1 pos s caps
        (fun pos' s' caps' =>
           k pos' s' (caps' ++ [String.substring 0 (pos' - pos) s])%list)
  | Bol => if (pos =? 0)%nat then k pos s caps else None
  | Eol =>
      match s with
      | EmptyString => k pos s caps
      | String a EmptyString =>
          if (a =? PyStr.LF)%char then k pos s caps else None
      | _ => None
      end
  | Eps => k pos s caps
  end.

End Matcher.

(** [pattern.match(s)]: the groups of a match that starts at 0. *)
Definition re_match (r : regex) (s : string) : option (list string) :=
  run r 0%nat s [] (fun _ _ caps => Some caps).

(** [re.search(pattern, s)]: the groups of the leftmost match. *)
Fixpoint search_from (r : regex) (pos : nat) (s : string)
    : option (list string) :=
  match run r pos s [] (fun _ _ caps => Some caps) with
  | Some caps => Some caps
  | None =>
      match s with
      | String _ t => search_from r (S pos) t
      | EmptyString => None
      end
  end.

Definition re_search (r : regex) (s : string) : option (list string) :=
  search_from r 0%nat s.

End Re.

Import Re.

(** [re.compile(r'^(\d{3})-(.+)\.html$')] *)
Definition slide_pattern : regex :=
  Seq Bol
 (Seq (Group (Seq (Cls PyStr.is_digit)
             (Seq (Cls PyStr.is_digit) (Cls PyStr.is_digit))))
 (Seq (Chr "-")
 (Seq (Group (Seq (Cls dot) (Star true dot)))
 (Seq (lit ".html") Eol)))).

(** [r'<title>.*?-\s*(.+?)</title>'] *)
Definition title_pattern : regex :=
  Seq (lit "<title>")
 (Seq (Star false dot)
 (Seq (Chr "-")
 (Seq (Star true PyStr.is_space)
 (Seq (Group (Seq (Cls dot) (Star false dot)))
      (lit "</title>"))))).

(* ================================================================== *)
(** * [json.dumps] of a list of strings *)
(* ================================================================== *)

Module Json.

Definition hex_digit (n : nat) : ascii :=
  if (n <? 10)%nat then ascii_of_nat (48 + n) else ascii_of_nat (87 + n).

(** One character under [ensure_ascii=True]: the quote and the
    backslash are escaped, the five short escapes are used, everything
    else outside space..tilde becomes a four-digit escape. *)
Definition encode_char (c : ascii) : string :=
  let n := nat_of_ascii c in
  let bs := String "\" EmptyString in
  if (c =? PyStr.DQ)%char then bs ++ String PyStr.DQ EmptyString
  else if (c =? "\")%char then bs ++ bs
  else if (n =? 10)%nat then bs ++ "n"
  else if (n =? 13)%nat then bs ++ "r"
  else if (n =? 9)%nat then bs ++ "t"
  else if (n =? 8)%nat then bs ++ "b"
  else if (n =? 12)%nat then bs ++ "f"
  else if ((32 <=? n)%nat && (n <=? 126)%nat)%bool then String c EmptyString
  else bs ++ "u00"
          ++ String (hex_digit (n / 16)) (String (hex_digit (n mod 16)) EmptyString).

Fixpoint encode_chars (s : string) : string :=
  match s with
  | EmptyString => EmptyString
  | String c r => encode_char c ++ encode_chars r
  end.

Definition encode_string (s : string) : string :=
  String PyStr.DQ (encode_chars s ++ String PyStr.DQ EmptyString).

(** [json.dumps(l)] with the default separators. *)
Definition dumps (l : list string) : string :=
  "[" ++ PyStr.join ", " (map encode_string l) ++ "]".

End Json.

(* ================================================================== *)
(** * Data model *)
(* ================================================================== *)

(** The dictionary [discover_slides] builds for one slide. *)
Record Slide : Type := mkSlide {
  number : string;
  title : string;
  filename : string;
  section : string
}.

(** The slide directory: [slides_dir.name], the [os.listdir] listing
    ([None] when the directory does not exist) and what reading a name
    as UTF-8 text gives ([None] when it raises). *)
Record Dir : Type := mkDir {
  dir_name : string;
  dir_listing : option (list string);
  dir_read : string -> option string
}.

Definition dir_exists (d : Dir) : bool :=
  match dir_listing d with Some _ => true | None => false end.

Definition dir_files (d : Dir) : list string :=
  match dir_listing d with Some l => l | None => [] end.

(** What [click.echo] prints; the constructor stands for the text of
    the call, its arguments for the values interpolated in it. *)
Inductive message : Type :=
| MsgDirMissing                      (* Directory ... does not exist! *)
| MsgNoHtmlFiles                     (* No HTML files found in ... *)
| MsgCouldNotRead (file : string)    (* Warning: Could not read ... *)
| MsgSkipping (file : string)        (* Skipping ... - doesn't match pattern *)
| MsgLookingIn                       (* Looking for slides in: ... *)
| MsgPageTitle (t : string)          (* Page title: ... *)
| MsgOutputFile (o : option string)  (* Output file: ... *)
| MsgCreatingSamples                 (* No slides found. Creating sample slides... *)
| MsgCreatedSample (file : string)   (* Created sample slide: ... *)
| MsgNoValidSlides                   (* No valid slides found! Use --create-samples ... *)
| MsgExpectedPattern                 (* Expected pattern: XXX-slide-title.html ... *)
| MsgDiscovered (n : nat)            (* Discovered n slides: *)
| MsgSlideLine (num t sec : string)  (* number. title (section) *)
| MsgGenerated (o : option string)   (* Generated navigation: ... *)
| MsgSavedMetadata                   (* Saved metadata to: ... *)
| MsgSuccess (o : option string)     (* Success! Open ... in your browser ... *)
| MsgFoundTotal (n : nat)            (* Found n slides total *)
| MsgSectionCount (sec : string) (n : nat) (* section: n slides *)
| MsgCreatedSlide (file : string).   (* Created slide: ... *)

(** One observable action: a line on stdout or stderr, or a file written
    ([in_dir]: a name inside the slide directory; otherwise a path given
    with [--output]). *)
Inductive event : Type :=
| Echo (err : bool) (m : message)
| Wrote (in_dir : bool) (path : string) (content : string).

Inductive exn : Type :=
| ValueError
| OSError.

(** The slide directory, which paths outside it can be opened for
    writing, and the trace so far. *)
Record World : Type := mkWorld {
  w_dir : Dir;
  w_writable : string -> bool;
  w_trace : list event
}.

Inductive outcome : Type :=
| Returned (w : World)
| Raised (e : exn) (w : World).


(** The static text that is not modelled character by character. *)
Record Templates : Type := mkTemplates {
  base_styles : string;                 (* [create_base_styles()] *)
  nav_static : nat -> string;           (* the literal segments of the
                                           navigation page, lines 324-642,
                                           numbered between interpolations *)
  sample_content : nat -> string;       (* ['content'] of sample slide k *)
  metadata_text : list Slide -> string  (* [json.dump(metadata, indent=2)] *)
}.

(* ================================================================== *)
(** * Filesystem operations *)
(* ================================================================== *)

(** A name that denotes an entry of the directory itself: not empty, no
    path separator, no NUL. *)
Definition valid_name (f : string) : bool :=
  negb (f =? "")%string && negb (f =? ".")%string && negb (f =? "..")%string &&
  PyStr.forall_chars (fun c => negb (c =? "/")%char && negb (c =? "000")%char) f.

Definition mem_name (f : string) (l : list string) : bool :=
  existsb (String.eqb f) l.

(** [slides_dir.mkdir(exist_ok=True)] *)
Definition mkdir (d : Dir) : Dir :=
  match dir_listing d with
  | Some _ => d
  | None => mkDir (dir_name d) (Some []) (dir_read d)
  end.

(** [open(slides_dir / name, 'w')] followed by [write]: [None] when the
    open raises.  Directories below the slide directory are not
    modelled, so a name with a separator cannot be opened. *)
Definition write_file (d : Dir) (name content : string) : option Dir :=
  match dir_listing d with
  | Some l =>
      if valid_name name
      then Some (mkDir (dir_name d)
                   (Some (if mem_name name l then l else (l ++ [name])%list))
                   (fun f => if (f =? name)%string then Some content
                             else dir_read d f))
      else None
  | None => None
  end.

(* ================================================================== *)
(** * [discover_slides] *)
(* ================================================================== *)

(** [html_files.sort()]: the order on [str] is the lexicographic order
    on code points; the sorted list is built by insertion. *)
Fixpoint insert_sorted (x : string) (l : list string) : list string :=
  match l with
  | [] => [x]
  | y :: t => if String.leb x y then x :: l else y :: insert_sorted x t
  end.

Definition sort_names (l : list string) : list string :=
  fold_right insert_sorted [] l.

(** [f.endswith('.html') and f != 'index.html'] *)
Definition is_html_file (f : string) : bool :=
  PyStr.endswith f ".html" && negb (f =? "index.html")%string.

(** [title_slug.replace('-', ' ').replace('and', '&').title()] *)
Definition slug_title (title_slug : string) : string :=
  PyStr.title (PyStr.replace "and" "&" (PyStr.replace "-" " " title_slug)).

(** [int(number) > 10]; [number] is a group of three digits, on which
    [int] does not raise. *)
Definition over_threshold (number : string) : bool :=
  match PyStr.int number with
  | Some n => 10 <? n
  | None => false
  end.

(** The body of the loop for one name: the slides appended and the
    lines echoed. *)
Definition discover_file (d : Dir) (filename : string)
    : list Slide * list event :=
  match re_match slide_pattern filename with
  | Some [number; title_slug] =>
      let title := slug_title title_slug in
      match dir_read d filename with
      | Some content =>
          let title :=
            match re_search title_pattern content with
            | Some [t] => t
            | _ => title
            end in
          let section :=
            if PyStr.contains "Appendix" content then "Appendix" else "Main" in
          ([mkSlide number title filename section], [])
      | None =>
          ([mkSlide number title filename
              (if over_threshold number then "Appendix" else "Main")],
           [Echo true (MsgCouldNotRead filename)])
      end
  | _ => ([], [Echo false (MsgSkipping filename)])
  end.

Fixpoint discover_loop (d : Dir) (files : list string)
    : list Slide * list event :=
  match files with
  | [] => ([], [])
  | f :: rest =>
      let (s1, e1) := discover_file d f in
      let (s2, e2) := discover_loop d rest in
      ((s1 ++ s2)%list, (e1 ++ e2)%list)
  end.

Definition discover_slides (d : Dir) : list Slide * list event :=
  match dir_listing d with
  | None => ([], [Echo true MsgDirMissing])
  | Some listing =>
      match filter is_html_file listing with
      | [] => ([], [Echo true MsgNoHtmlFiles])
      | html_files => discover_loop d (sort_names html_files)
      end
  end.

(* ================================================================== *)
(** * [create_navigation_html] *)
(* ================================================================== *)

(** [s] between double quotes. *)
Definition quoted (s : string) : string :=
  String PyStr.DQ (s ++ String PyStr.DQ EmptyString).

Definition nl : string := String PyStr.LF EmptyString.

Fixpoint spaces (k : nat) : string :=
  match k with
  | O => EmptyString
  | S k' => String " " (spaces k')
  end.

(** What the loop appends to [sidebar_items]. *)
Inductive sidebar_item : Type :=
| OpenSection (sec : string)          (* <div class="section"><h3>sec</h3> *)
| CloseSection                        (* </div> *)
| SlideItem (i : nat) (slide : Slide). (* the slide-item block *)

(** [slides_dir_name] and [slides_path_prefix] *)
Definition slides_path_prefix (d : Dir) : string :=
  let slides_dir_name :=
    if negb (dir_name d =? ".")%string then dir_name d else "" in
  match slides_dir_name with
  | EmptyString => ""
  | _ => slides_dir_name ++ "/"
  end.

(** The text of one appended item. *)
Definition render_item (prefix : string) (it : sidebar_item) : string :=
  match it with
  | OpenSection sec =>
      "<div class=" ++ quoted "section" ++ "><h3>" ++ sec ++ "</h3>"
  | CloseSection => "</div>"
  | SlideItem i slide =>
      let active_class := if (i =? 0)%nat then "active" else "" in
      let slide_path := prefix ++ filename slide in
      nl ++ spaces 12 ++ "<div class=" ++ quoted ("slide-item " ++ active_class)
         ++ " onclick="
         ++ quoted ("loadSlide('" ++ slide_path ++ "', "
                    ++ PyStr.dec (N.of_nat i) ++ ")")
         ++ ">" ++ nl
         ++ spaces 16 ++ number slide ++ ". " ++ title slide ++ nl
         ++ spaces 12 ++ "</div>" ++ nl
         ++ spaces 8
  end.

(** The loop over [enumerate(slides)], from index [i] with
    [current_section] as it stands; returns the items appended and the
    final [current_section]. *)
Fixpoint sidebar_loop (i : nat) (current_section : option string)
    (slides : list Slide) : list sidebar_item * option string :=
  match slides with
  | [] => ([], current_section)
  | slide :: rest =>
      let sec := section slide in
      let same :=
        match current_section with
        | Some c => (sec =? c)%string
        | None => false
        end in
      let opening :=
        if same then []
        else match current_section with
             | Some _ => [CloseSection; OpenSection sec]
             | None => [OpenSection sec]
             end in
      let current' := if same then current_section else Some sec in
      let (items, final) := sidebar_loop (S i) current' rest in
      ((opening ++ SlideItem i slide :: items)%list, final)
  end.

Definition sidebar_items (slides : list Slide) : list sidebar_item :=
  let (items, final) := sidebar_loop 0%nat None slides in
  match final with
  | Some _ => (items ++ [CloseSection])%list
  | None => items
  end.

(** [''.join(sidebar_items)] *)
Definition sidebar_html (d : Dir) (slides : list Slide) : string :=
  PyStr.join "" (map (render_item (slides_path_prefix d)) (sidebar_items slides)).

(** The values interpolated into the page, in the order they appear. *)
Record NavFields : Type := mkNavFields {
  nf_title : string;            (* line 329 *)
  nf_heading : string;          (* line 491 *)
  nf_sidebar : string;          (* line 492 *)
  nf_count : string;            (* line 497, [len(slides)] *)
  nf_first_slide : string;      (* line 500 *)
  nf_last_index : string;       (* line 506, [len(slides) - 1] *)
  nf_slides : string;           (* line 528, [const slides] *)
  nf_slide_filenames : string;  (* line 529, [const slideFilenames] *)
  nf_pdf_title : string;        (* line 610 *)
  nf_download : string          (* line 619 *)
}.

Definition nav_fields (slides : list Slide) (page_title : string) (d : Dir)
    : NavFields :=
  let prefix := slides_path_prefix d in
  let first_slide :=
    match slides with
    | s0 :: _ => prefix ++ filename s0
    | [] => "index.html"
    end in
  mkNavFields
    page_title
    page_title
    (sidebar_html d slides)
    (PyStr.dec (N.of_nat (List.length slides)))
    first_slide
    (PyStr.str_of_Z (Z.of_nat (List.length slides) - 1))
    (Json.dumps (map (fun slide => prefix ++ filename slide) slides))
    (Json.dumps (map filename slides))
    page_title
    (PyStr.replace " " "_" (PyStr.lower page_title)).

Definition nav_field_list (f : NavFields) : list string :=
  [nf_title f; nf_heading f; nf_sidebar f; nf_count f; nf_first_slide f;
   nf_last_index f; nf_slides f; nf_slide_filenames f; nf_pdf_title f;
   nf_download f].

(** Literal segment [k], then value [k], and so on; the last literal
    segment closes the text. *)
Fixpoint splice (static : nat -> string) (k : nat) (values : list string)
    : string :=
  match values with
  | [] => static k
  | v :: rest => static k ++ v ++ splice static (S k) rest
  end.

Section Program.

Variable tpl : Templates.

Definition create_navigation_html (slides : list Slide) (page_title : string)
    (d : Dir) : string :=
  splice (nav_static tpl) 0%nat (nav_field_list (nav_fields slides page_title d)).

(* ================================================================ *)
(** * [create_slide_template] and [create_sample_slides] *)
(* ================================================================ *)

(** [section_badge]; an absent or empty [section] gives no badge. *)
Definition section_badge (sec : option string) : string :=
  match sec with
  | None | Some EmptyString => ""
  | Some s =>
      "<div style="
        ++ quoted ("background: #e74c3c; color: white; padding: 5px 15px; "
                   ++ "border-radius: 20px; display: inline-block; "
                   ++ "margin-bottom: 20px; font-size: 0.9em;")
        ++ ">" ++ s ++ "</div>"
  end.

Definition create_slide_template (page_title content : string)
    (sec : option string) : string :=
  "<!DOCTYPE html>" ++ nl
  ++ "<html lang=" ++ quoted "en" ++ ">" ++ nl
  ++ "<head>" ++ nl
  ++ "    <meta charset=" ++ quoted "UTF-8" ++ ">" ++ nl
  ++ "    <meta name=" ++ quoted "viewport" ++ " content="
  ++ quoted "width=device-width, initial-scale=1.0" ++ ">" ++ nl
  ++ "    <title>" ++ page_title ++ "</title>" ++ nl
  ++ "    " ++ base_styles tpl ++ nl
  ++ "</head>" ++ nl
  ++ "<body>" ++ nl
  ++ "    <div class=" ++ quoted "slide-container" ++ ">" ++ nl
  ++ "        " ++ section_badge sec ++ nl
  ++ "        " ++ content ++ nl
  ++ "    </div>" ++ nl
  ++ "</body>" ++ nl
  ++ "</html>".

(** [f"{number}-{title.lower().replace(' ', '-').replace('&', 'and')}.html"] *)
Definition slide_filename (num page_title : string) : string :=
  num ++ "-"
  ++ PyStr.replace "&" "and" (PyStr.replace " " "-" (PyStr.lower page_title))
  ++ ".html".

(** [sample_slides]: number, title, index of the content, section. *)
Definition sample_slides : list (string * string * nat * option string) :=
  [("001", "Introduction to Prefect", 0%nat, None);
   ("002", "Quick Setup", 1%nat, None);
   ("011", "Prefect vs Airflow", 2%nat, Some "Appendix")].

Definition append_events (w : World) (es : list event) : World :=
  mkWorld (w_dir w) (w_writable w) (w_trace w ++ es)%list.

Definition set_dir (w : World) (d : Dir) : World :=
  mkWorld d (w_writable w) (w_trace w).

(** Writing [name] in the slide directory and recording it. *)
Definition write_in_dir (w : World) (name content : string) : outcome :=
  match write_file (w_dir w) name content with
  | Some d' => Returned (append_events (set_dir w d') [Wrote true name content])
  | None => Raised OSError w
  end.

Fixpoint create_samples_loop
    (samples : list (string * string * nat * option string)) (w : World)
    : outcome :=
  match samples with
  | [] => Returned w
  | (num, t, k, sec) :: rest =>
      let file := slide_filename num t in
      let html_content :=
        create_slide_template (num ++ " - " ++ t) (sample_content tpl k) sec in
      match write_in_dir w file html_content with
      | Returned w' =>
          create_samples_loop rest
            (append_events w' [Echo false (MsgCreatedSample file)])
      | Raised e w' => Raised e w'
      end
  end.

Definition create_sample_slides (w : World) : outcome :=
  create_samples_loop sample_slides w.

(* ================================================================ *)
(** * [save_slide_metadata] and [generate_navigation] *)
(* ================================================================ *)

Definition save_slide_metadata (slides : list Slide) (w : World) : outcome :=
  match write_in_dir w "slides_metadata.json" (metadata_text tpl slides) with
  | Returned w' => Returned (append_events w' [Echo false MsgSavedMetadata])
  | Raised e w' => Raised e w'
  end.

(** [sections[section] = sections.get(section, 0) + 1] on a dictionary
    that keeps insertion order. *)
Fixpoint bump (sec : string) (sections : list (string * nat))
    : list (string * nat) :=
  match sections with
  | [] => [(sec, 1%nat)]
  | (k, n) :: rest =>
      if (k =? sec)%string then (k, S n) :: rest else (k, n) :: bump sec rest
  end.

Definition section_breakdown (slides : list Slide) : list (string * nat) :=
  fold_left (fun sections slide => bump (section slide) sections) slides [].

(** [open(output, 'w')] followed by [write]; without [--output] the
    page is [index.html] in the slide directory. *)
Definition write_output (output : option string) (content : string)
    (w : World) : outcome :=
  match output with
  | None => write_in_dir w "index.html" content
  | Some path =>
      if w_writable w path
      then Returned (append_events w [Wrote false path content])
      else Raised OSError w
  end.

Definition generate_navigation (page_title : string) (output : option string)
    (create_samples metadata verbose : bool) (w : World) : outcome :=
  let w := set_dir w (mkdir (w_dir w)) in
  let w :=
    if verbose
    then append_events w [Echo false MsgLookingIn;
                          Echo false (MsgPageTitle page_title);
                          Echo false (MsgOutputFile output)]
    else w in
  let existing_slides := filter is_html_file (dir_files (w_dir w)) in
  let seeded :=
    match existing_slides with
    | [] =>
        if create_samples
        then create_sample_slides (append_events w [Echo false MsgCreatingSamples])
        else Returned w
    | _ => Returned w
    end in
  match seeded with
  | Raised e w' => Raised e w'
  | Returned w =>
      let (slides, echoed) := discover_slides (w_dir w) in
      let w := append_events w echoed in
      match slides with
      | [] =>
          Returned (append_events w [Echo true MsgNoValidSlides;
                                     Echo false MsgExpectedPattern])
      | _ =>
          let w :=
            if verbose
            then append_events w
                   (Echo false (MsgDiscovered (List.length slides))
                    :: map (fun slide =>
                              Echo false (MsgSlideLine (number slide)
                                            (title slide) (section slide)))
                           slides)
            else w in
          let navigation_html :=
            create_navigation_html slides page_title (w_dir w) in
          match write_output output navigation_html w with
          | Raised e w' => Raised e w'
          | Returned w =>
              let w := append_events w [Echo false (MsgGenerated output)] in
              let saved :=
                if metadata then save_slide_metadata slides w else Returned w in
              match saved with
              | Raised e w' => Raised e w'
              | Returned w =>
                  Returned
                    (append_events w
                       (Echo false (MsgSuccess output)
                        :: Echo false (MsgFoundTotal (List.length slides))
                        :: map (fun p => Echo false
                                           (MsgSectionCount (fst p) (snd p)))
                               (section_breakdown slides)))
              end
          end
      end
  end.

(* ================================================================ *)
(** * [create_slide] and the command line *)
(* ================================================================ *)




End Program.

(* ================================================================== *)
(** * The dictionary of [save_slide_metadata] *)
(* ================================================================== *)

(** [metadata['sections']]: a dictionary from section to the list of its
    slides, in insertion order.  One step of the loop: a section seen
    for the first time gets a new list, and the slide is appended to the
    list of its section. *)
Fixpoint add_to_section (slide : Slide) (sections : list (string * list Slide))
    : list (string * list Slide) :=
  match sections with
  | [] => [(section slide, [slide])]
  | (k, g) :: rest =>
      if (k =? section slide)%string then (k, (g ++ [slide])%list) :: rest
      else (k, g) :: add_to_section slide rest
  end.

Definition metadata_sections (slides : list Slide)
    : list (string * list Slide) :=
  fold_left (fun sections slide => add_to_section slide sections) slides [].

(** [metadata['total_slides']] *)
Definition metadata_total (slides : list Slide) : nat := List.length slides.

(* ================================================================== *)
(** * The PDF command: the default output and the body of a slide *)
(* ================================================================== *)

(** The default [output] of [generate_pdf_command]:
    [title.lower().replace(' ', '_').replace('/', '_')] followed by
    [_slides.pdf]. *)
Definition pdf_default_output (page_title : string) : string :=
  PyStr.replace "/" "_" (PyStr.replace " " "_" (PyStr.lower page_title))
  ++ "_slides.pdf".

(** [[^>]] *)
Definition not_gt (c : ascii) : bool := negb (c =? ">")%char.

(** [.] under [re.DOTALL] *)
Definition any_char (c : ascii) : bool := true.

Definition container_open : string :=
  "<div class=" ++ quoted "slide-container".

(** The pattern of [generate_pdf_playwright], compiled with
    [re.DOTALL]: the opening tag of the container and the rest of its
    attributes, the body taken lazily, then the closing tag, white
    space and the end of the document body. *)
Definition container_pattern : regex :=
  Seq (lit container_open)
 (Seq (Star true not_gt)
 (Seq (Chr ">")
 (Seq (Group (Star false any_char))
 (Seq (lit "</div>")
 (Seq (Star true PyStr.is_space)
      (lit "</body>")))))).

(** [container_match.group(1)]; [None] when the search fails. *)
Definition slide_body (slide_content : string) : option string :=
  match re_search container_pattern slide_content with
  | Some (body :: _) => Some body
  | _ => None
  end.

(* ================================================================== *)
(** * Notions used in the statements *)
(* ================================================================== *)

(** What a pattern means, without the order of preference:
    [matches r pos s1 s2 caps] says that [r] can match the text [s1]
    starting at position [pos] when [s2] follows, closing the groups
    [caps]. *)
Inductive matches : regex -> nat -> string -> string -> list string -> Prop :=
| M_Chr : forall c pos s2,
    matches (Chr c) pos (String c EmptyString) s2 []
| M_Cls : forall p a pos s2,
    p a = true -> matches (Cls p) pos (String a EmptyString) s2 []
| M_Seq : forall r1 r2 pos s1 s1' s2 c1 c2,
    matches r1 pos s1 (s1' ++ s2) c1 ->
    matches r2 (pos + String.length s1)%nat s1' s2 c2 ->
    matches (Seq r1 r2) pos (s1 ++ s1') s2 (c1 ++ c2)%list
| M_Star : forall g p pos s1 s2,
    PyStr.forall_chars p s1 = true -> matches (Star g p) pos s1 s2 []
| M_Group : forall r pos s1 s2 c,
    matches r pos s1 s2 c -> matches (Group r) pos s1 s2 (c ++ [s1])%list
| M_Bol : forall s2, matches Bol 0%nat EmptyString s2 []
| M_Eol : forall pos s2,
    s2 = EmptyString \/ s2 = nl -> matches Eol pos EmptyString s2 []
| M_Eps : forall pos s2, matches Eps pos EmptyString s2 [].

(** A name of the form [NNN-slug.html]: three decimal digits, a hyphen,
    a slug of at least one character none of which is a line feed, and
    the extension. *)
Fixpoint slug_then_html (rest : string) : bool :=
  match rest with
  | EmptyString => false
  | String x r => dot x && ((r =? ".html")%string || slug_then_html r)
  end.

Definition well_formed_name (f : string) : bool :=
  match f with
  | String a (String b (String c (String "-" rest))) =>
      PyStr.is_digit a && PyStr.is_digit b && PyStr.is_digit c
      && slug_then_html rest
  | _ => false
  end.








Definition is_write (e : event) : bool :=
  match e with
  | Wrote _ _ _ => true
  | Echo _ _ => false
  end.

(** Two directories that differ at most in the order of the listing. *)
Definition same_listing (d1 d2 : Dir) : Prop :=
  match dir_listing d1, dir_listing d2 with
  | Some l1, Some l2 => Permutation l1 l2
  | None, None => True
  | _, _ => False
  end.



(** Templates with no static text, and an empty world, for examples. *)
Definition blank_templates : Templates :=
  mkTemplates "" (fun _ => "") (fun _ => "") (fun _ => "").

Definition empty_dir (name : string) : Dir :=
  mkDir name (Some []) (fun _ => None).

Definition fresh_world (d : Dir) : World := mkWorld d (fun _ => true) [].

(** The continuation that ends a match: it returns the groups. *)
Definition final_groups : @cont (list string) := fun _ _ caps => Some caps.

(** The order [sort] uses on names. *)
Definition name_le (a b : string) : Prop := String.leb a b = true.

(** The slide [discover_file] builds for an accepted name. *)
Definition slide_for (d : Dir) (f n g : string) : Slide :=
  match dir_read d f with
  | Some content =>
      mkSlide n
        (match re_search title_pattern content with
         | Some [t] => t
         | _ => slug_title g
         end)
        f
        (if PyStr.contains "Appendix" content then "Appendix" else "Main")
  | None =>
      mkSlide n (slug_title g) f
        (if over_threshold n then "Appendix" else "Main")
  end.


(** [x] is the label before, if there is one. *)
Definition same_as (cur : option string) (x : string) : bool :=
  match cur with
  | Some c => (x =? c)%string
  | None => false
  end.



Definition is_some {A : Type} (o : option A) : nat :=
  match o with Some _ => 1%nat | None => 0%nat end.

(** The command returns, having only echoed, the line that reports the
    empty result among the lines; the directory is as it was, created if
    it did not exist. *)
Definition reports_no_slides (w : World) (o : outcome) : Prop :=
  exists es,
    o = Returned (mkWorld (mkdir (w_dir w)) (w_writable w) (w_trace w ++ es)%list)
    /\ existsb is_write es = false
    /\ In (Echo true MsgNoValidSlides) es.


(** A deck of three slides, one of them unreadable, next to a page
    generated earlier and a file that is not a slide. *)
Definition deck_read (f : string) : option string :=
  if (f =? "001-intro.html")%string then Some "<title>001 - Intro</title>"
  else if (f =? "011-compare.html")%string then Some "<h1>Appendix</h1>"
  else None.

Definition deck_listing : list string :=
  ["011-compare.html"; "notes.txt"; "index.html"; "001-intro.html";
   "020-locked.html"].

Definition deck_dir : Dir := mkDir "deck" (Some deck_listing) deck_read.

Definition deck_dir_reversed : Dir :=
  mkDir "deck" (Some (rev deck_listing)) deck_read.


Definition notes_dir : Dir :=
  mkDir "deck" (Some ["notes.txt"; "readme.html"]) (fun _ => None).

(** The world a command leaves, whether it returned or raised. *)
Definition final_world (o : outcome) : World :=
  match o with
  | Returned w => w
  | Raised _ w => w
  end.



(** [c] does not occur in [s]. *)
Definition lacks (c : ascii) (s : string) : bool :=
  PyStr.forall_chars (fun x => negb (x =? c)%char) s.

(** The text of a slide page before its [<title>] element, and after it. *)
Definition template_head : string :=
  "<!DOCTYPE html>" ++ nl
  ++ "<html lang=" ++ quoted "en" ++ ">" ++ nl
  ++ "<head>" ++ nl
  ++ "    <meta charset=" ++ quoted "UTF-8" ++ ">" ++ nl
  ++ "    <meta name=" ++ quoted "viewport" ++ " content="
  ++ quoted "width=device-width, initial-scale=1.0" ++ ">" ++ nl
  ++ "    ".



(** The [div] elements of the sidebar are balanced: a section opens
    only when none is open, closes only when one is open, a slide item
    lies inside an open section, and nothing stays open at the end. *)
Fixpoint well_nested (opened : bool) (items : list sidebar_item) : bool :=
  match items with
  | [] => negb opened
  | OpenSection _ :: r => negb opened && well_nested true r
  | CloseSection :: r => opened && well_nested false r
  | SlideItem _ _ :: r => opened && well_nested true r
  end.

(** The slides of a section, in order. *)
Definition in_section (sec : string) (slides : list Slide) : list Slide :=
  filter (fun s => (section s =? sec)%string) slides.

Definition is_skip (e : event) : bool :=
  match e with
  | Echo _ (MsgSkipping _) => true
  | _ => false
  end.

Definition has_section (cur : option string) : bool :=
  match cur with Some _ => true | None => false end.

(** [sections.get(sec, [])] on the dictionary of the metadata. *)
Fixpoint group_of (sec : string) (sections : list (string * list Slide))
    : list Slide :=
  match sections with
  | [] => []
  | (k, g) :: rest => if (k =? sec)%string then g else group_of sec rest
  end.

(** A section with the size of its list. *)
Definition group_size (p : string * list Slide) : string * nat :=
  (fst p, List.length (snd p)).

(** The file [f] is where it was and reads as it did. *)
Definition kept (f : string) (w w' : World) : Prop :=
  (In f (dir_files (w_dir w)) -> In f (dir_files (w_dir w')))
  /\ dir_read (w_dir w') f = dir_read (w_dir w) f.

(** The names under which a list of samples is written. *)
Definition sample_names
    (samples : list (string * string * nat * option string)) : list string :=
  map (fun '(num, t, _, _) => slide_filename num t) samples.

(** The page [content] is where [--output] asks for it: in
    [index.html] of the slide directory by default, otherwise written to
    the path given. *)
Definition page_written (output : option string) (content : string)
    (w : World) : Prop :=
  match output with
  | None => dir_read (w_dir w) "index.html" = Some content
            /\ In "index.html" (dir_files (w_dir w))
  | Some path => In (Wrote false path content) (w_trace w)
  end.

(** The files written so far, in order. *)
Definition writes (w : World) : list event := filter is_write (w_trace w).


(** Neither a space, nor an ampersand, nor an upper-case letter. *)
Definition slug_char (c : ascii) : bool :=
  negb (c =? " ")%char && negb (c =? "&")%char && negb (PyStr.is_upper c).

(** A code point below 128, where the case mappings of the model are
    those of Python. *)
Definition is_ascii (c : ascii) : bool := (nat_of_ascii c <? 128)%nat.

(** The slug [create_slide] and [create_sample_slides] put in a file
    name: [title.lower().replace(' ', '-').replace('&', 'and')]. *)
Definition slug_of (page_title : string) : string :=
  PyStr.replace "&" "and" (PyStr.replace " " "-" (PyStr.lower page_title)).

(** A title in title case without hyphen, ampersand or the letters
    [and] in a row. *)
Definition simple_title (t : string) : bool :=
  PyStr.forall_chars is_ascii t
  && (PyStr.title t =? t)%string
  && lacks "-" t && lacks "&" t
  && negb (PyStr.contains "and" (PyStr.lower t)).


(** What [create_slide_template] puts inside the container. *)
Definition template_body (content : string) (sec : option string) : string :=
  nl ++ "        " ++ section_badge sec ++ nl
  ++ "        " ++ content ++ nl
  ++ "    ".

(** The text of the section, when there is one. *)
Definition section_text (sec : option string) : string :=
  match sec with Some a => a | None => "" end.

(** What [create_slide_template] puts before the container. *)
Definition template_before_body (tpl : Templates) (page_title : string)
    : string :=
  template_head ++ "<title>" ++ page_title ++ "</title>" ++ nl
  ++ "    " ++ base_styles tpl ++ nl
  ++ "</head>" ++ nl
  ++ "<body>" ++ nl
  ++ "    ".

(** The end of the container and of the document. *)
Definition closing_pattern : regex :=
  Seq (lit "</div>") (Seq (Star true PyStr.is_space) (lit "</body>")).

(** The value of a hexadecimal digit in lower case. *)
Definition unhex (c : ascii) : nat :=
  let n := nat_of_ascii c in
  if (n <=? 57)%nat then (n - 48)%nat else (n - 87)%nat.

(** Reading back the characters of a JSON string: an escape gives the
    character it stands for, any other character itself; [None] on an
    escape [encode_char] does not write. *)
Fixpoint unescape (s : string) : option string :=
  match s with
  | EmptyString => Some EmptyString
  | String c r =>
      if (c =? "\")%char
      then match r with
           | String e r' =>
               if (e =? "u")%char
               then match r' with
                    | String _ (String _ (String h (String l r''))) =>
                        option_map
                          (String (ascii_of_nat (16 * unhex h + unhex l)))
                          (unescape r'')
                    | _ => None
                    end
               else
                 let plain x := option_map (String x) (unescape r') in
                 if (e =? "n")%char then plain "010"%char
                 else if (e =? "r")%char then plain "013"%char
                 else if (e =? "t")%char then plain "009"%char
                 else if (e =? "b")%char then plain "008"%char
                 else if (e =? "f")%char then plain "012"%char
                 else plain e
           | EmptyString => None
           end
      else option_map (String c) (unescape r)
  end.

(** A character from the space to the tilde. *)
Definition printable (c : ascii) : bool :=
  let n := nat_of_ascii c in (32 <=? n)%nat && (n <=? 126)%nat.

(* ================================================================== *)
(** * Text lemmas *)
(* ================================================================== *)

Lemma append_nil_r (s : string) : s ++ "" = s.
Proof. induction s as [|c s IH]; simpl; [reflexivity | now rewrite IH]. Qed.

Lemma append_assoc (a b c : string) : (a ++ b) ++ c = a ++ (b ++ c).
Proof. induction a as [|x a IH]; simpl; [reflexivity | now rewrite IH]. Qed.

(** Appends associated to the right, literals pushed through. *)
Ltac norm_append :=
  repeat (progress (rewrite ?append_assoc; cbn [String.append])).

Lemma length_append (a b : string) :
  String.length (a ++ b) = (String.length a + String.length b)%nat.
Proof. induction a as [|x a IH]; simpl; [reflexivity | now rewrite IH]. Qed.

Lemma substring_0_length (a b : string) :
  String.substring 0 (String.length a) (a ++ b) = a.
Proof.
  induction a as [|x a IH]; simpl.
  - destruct b; reflexivity.
  - now rewrite IH.
Qed.

Lemma list_of_append (a b : string) :
  list_ascii_of_string (a ++ b)
  = (list_ascii_of_string a ++ list_ascii_of_string b)%list.
Proof. induction a as [|x a IH]; simpl; [reflexivity | now rewrite IH]. Qed.

Lemma list_of_string_inj (a b : string) :
  list_ascii_of_string a = list_ascii_of_string b -> a = b.
Proof.
  intro H. rewrite <- (string_of_list_ascii_of_string a),
    <- (string_of_list_ascii_of_string b). now rewrite H.
Qed.

Lemma append_inv_tail (a b c : string) : a ++ c = b ++ c -> a = b.
Proof.
  intro H. apply list_of_string_inj.
  apply (f_equal list_ascii_of_string) in H.
  rewrite !list_of_append in H. now apply app_inv_tail in H.
Qed.

Lemma append_inv_head (a b c : string) : a ++ b = a ++ c -> b = c.
Proof. induction a as [|x a IH]; simpl; intro H; [assumption|]. injection H. exact IH. Qed.

Lemma forall_chars_append (p : ascii -> bool) (a b : string) :
  PyStr.forall_chars p (a ++ b)
  = PyStr.forall_chars p a && PyStr.forall_chars p b.
Proof.
  induction a as [|x a IH]; simpl; [reflexivity|].
  now rewrite IH, andb_assoc.
Qed.

Lemma endswith_iff (s suf : string) :
  PyStr.endswith s suf = true <-> exists p, s = p ++ suf.
Proof.
  induction s as [|c s IH]; cbn [PyStr.endswith].
  - rewrite orb_false_r. split.
    + intro H. apply String.eqb_eq in H. subst. now exists "".
    + intros [p H]. destruct p; simpl in H; [|discriminate].
      subst. reflexivity.
  - rewrite orb_true_iff, IH. split.
    + intros [H | [p H]].
      * apply String.eqb_eq in H. exists "". now rewrite <- H.
      * exists (String c p). simpl. now rewrite H.
    + intros [p H]. destruct p as [|x p]; simpl in H.
      * left. rewrite <- H. apply String.eqb_refl.
      * right. injection H as _ H. now exists p.
Qed.

Lemma prefix_iff (p s : string) :
  String.prefix p s = true <-> exists r, s = p ++ r.
Proof.
  revert s. induction p as [|c p IH]; intro s; simpl.
  - split; [intros _; now exists s | intros _; now destruct s].
  - destruct s as [|x s]; simpl.
    + split; [discriminate | intros [r H]; discriminate].
    + destruct (ascii_dec c x) as [->|Hne].
      * rewrite IH. split; intros [r H]; exists r.
        -- now rewrite H.
        -- now injection H.
      * split; [discriminate|]. intros [r H]. injection H as H _.
        now elim Hne.
Qed.

Lemma contains_iff (sub s : string) :
  PyStr.contains sub s = true <-> exists a b, s = a ++ sub ++ b.
Proof.
  induction s as [|c s IH]; cbn [PyStr.contains].
  - rewrite orb_false_r, prefix_iff. split.
    + intros [r H]. now exists "", r.
    + intros [a [b H]]. destruct a; simpl in H; [now exists b | discriminate].
  - rewrite orb_true_iff, IH, prefix_iff. split.
    + intros [[r H] | [a [b H]]].
      * now exists "", r.
      * exists (String c a), b. simpl. now rewrite H.
    + intros [a [b H]]. destruct a as [|x a]; simpl in H.
      * left. now exists b.
      * right. injection H as _ H. now exists a, b.
Qed.

(* ================================================================== *)
(** * The matcher finds exactly what the pattern means *)
(* ================================================================== *)

Section MatcherFacts.

Context {R : Type}.

Lemma star_greedy_sound (p : ascii -> bool) :
  forall s pos caps (k : @cont R) x,
    star_greedy p pos s caps k = Some x ->
    exists s1 s2, s = s1 ++ s2 /\ PyStr.forall_chars p s1 = true
                  /\ k (pos + String.length s1)%nat s2 caps = Some x.
Proof.
  induction s as [|c s IH]; intros pos caps k x H; simpl in H.
  - exists "", "". simpl. now rewrite Nat.add_0_r.
  - destruct (p c) eqn:Hp.
    + destruct (star_greedy p (S pos) s caps k) as [y|] eqn:Hs.
      * injection H as <-. apply IH in Hs.
        destruct Hs as [s1 [s2 [-> [Hall Hk]]]].
        exists (String c s1), s2. simpl. rewrite Hp, Hall.
        rewrite Nat.add_succ_r. now repeat split.
      * exists "", (String c s). simpl. now rewrite Nat.add_0_r.
    + exists "", (String c s). simpl. now rewrite Nat.add_0_r.
Qed.

Lemma star_greedy_complete (p : ascii -> bool) :
  forall s pos caps (k : @cont R),
    star_greedy p pos s caps k = None ->
    forall s1 s2, s = s1 ++ s2 -> PyStr.forall_chars p s1 = true ->
                  k (pos + String.length s1)%nat s2 caps = None.
Proof.
  induction s as [|c s IH]; intros pos caps k H s1 s2 Hs Hall; simpl in H.
  - destruct s1; [|discriminate]. simpl in Hs. subst s2.
    simpl. now rewrite Nat.add_0_r.
  - destruct s1 as [|a s1]; simpl in Hs.
    + subst s2. simpl. rewrite Nat.add_0_r.
      destruct (p c); [|assumption].
      destruct (star_greedy p (S pos) s caps k); [discriminate | assumption].
    + injection Hs as <- ->. simpl in Hall.
      apply andb_true_iff in Hall. destruct Hall as [Hc Hall].
      rewrite Hc in H.
      destruct (star_greedy p (S pos) (s1 ++ s2) caps k) eqn:Hg; [discriminate|].
      simpl. rewrite Nat.add_succ_r.
      now apply (IH (S pos) caps k Hg s1 s2).
Qed.

Lemma star_lazy_sound (p : ascii -> bool) :
  forall s pos caps (k : @cont R) x,
    star_lazy p pos s caps k = Some x ->
    exists s1 s2, s = s1 ++ s2 /\ PyStr.forall_chars p s1 = true
                  /\ k (pos + String.length s1)%nat s2 caps = Some x.
Proof.
  induction s as [|c s IH]; intros pos caps k x H; simpl in H.
  - exists "", "". simpl. rewrite Nat.add_0_r.
    destruct (k pos "" caps); [now repeat split | discriminate].
  - destruct (k pos (String c s) caps) as [y|] eqn:Hk.
    + injection H as <-. exists "", (String c s). simpl.
      now rewrite Nat.add_0_r.
    + destruct (p c) eqn:Hp; [|discriminate].
      apply IH in H. destruct H as [s1 [s2 [-> [Hall Hk']]]].
      exists (String c s1), s2. simpl. rewrite Hp, Hall.
      rewrite Nat.add_succ_r. now repeat split.
Qed.

Lemma star_lazy_complete (p : ascii -> bool) :
  forall s pos caps (k : @cont R),
    star_lazy p pos s caps k = None ->
    forall s1 s2, s = s1 ++ s2 -> PyStr.forall_chars p s1 = true ->
                  k (pos + String.length s1)%nat s2 caps = None.
Proof.
  induction s as [|c s IH]; intros pos caps k H s1 s2 Hs Hall; simpl in H.
  - destruct s1; [|discriminate]. simpl in Hs. subst s2.
    simpl. rewrite Nat.add_0_r.
    destruct (k pos "" caps); [discriminate | reflexivity].
  - destruct (k pos (String c s) caps) eqn:Hk; [discriminate|].
    destruct s1 as [|a s1]; simpl in Hs.
    + subst s2. simpl. now rewrite Nat.add_0_r.
    + injection Hs as <- ->. simpl in Hall.
      apply andb_true_iff in Hall. destruct Hall as [Hc Hall].
      rewrite Hc in H. simpl. rewrite Nat.add_succ_r.
      now apply (IH (S pos) caps k H s1 s2).
Qed.

(** Soundness: a result of the matcher comes from a match in the sense
    of [matches], handed to the continuation. *)
Lemma run_sound :
  forall r pos s caps (k : @cont R) x,
    run r pos s caps k = Some x ->
    exists s1 s2 c,
      s = s1 ++ s2 /\ matches r pos s1 s2 c
      /\ k (pos + String.length s1)%nat s2 (caps ++ c)%list = Some x.
Proof.
  induction r as [c|p|r1 IH1 r2 IH2|g p|r1 IH1| | |];
    intros pos s caps k x H; simpl in H.
  - destruct s as [|a t]; [discriminate|].
    destruct (Ascii.eqb_spec a c) as [->|]; [|discriminate].
    exists (String c ""), t, []. simpl. rewrite app_nil_r, Nat.add_1_r.
    repeat split; [constructor | assumption].
  - destruct s as [|a t]; [discriminate|].
    destruct (p a) eqn:Hp; [|discriminate].
    exists (String a ""), t, []. simpl. rewrite app_nil_r, Nat.add_1_r.
    repeat split; [now constructor | assumption].
  - apply IH1 in H. destruct H as [s1 [s2 [c1 [-> [M1 H]]]]].
    apply IH2 in H. destruct H as [s1' [s2' [c2 [-> [M2 H]]]]].
    exists (s1 ++ s1'), s2', (c1 ++ c2)%list.
    rewrite append_assoc, length_append, Nat.add_assoc, app_assoc.
    repeat split; [now constructor | assumption].
  - assert (Hs : exists s1 s2, s = s1 ++ s2 /\ PyStr.forall_chars p s1 = true
                  /\ k (pos + String.length s1)%nat s2 caps = Some x).
    { destruct g; [now apply star_greedy_sound | now apply star_lazy_sound]. }
    destruct Hs as [s1 [s2 [-> [Hall Hk]]]].
    exists s1, s2, []. rewrite app_nil_r.
    repeat split; [now constructor | assumption].
  - apply IH1 in H. destruct H as [s1 [s2 [c [-> [M1 H]]]]].
    exists s1, s2, (c ++ [s1])%list.
    replace (pos + String.length s1 - pos)%nat with (String.length s1) in H by lia.
    rewrite substring_0_length in H. rewrite app_assoc.
    repeat split; [now constructor | assumption].
  - destruct (Nat.eqb_spec pos 0) as [->|]; [|discriminate].
    exists "", s, []. simpl. rewrite app_nil_r.
    repeat split; [constructor | assumption].
  - exists "", s, []. simpl. rewrite app_nil_r, Nat.add_0_r.
    destruct s as [|a [|b t]]; try discriminate.
    + repeat split; [constructor; now left | assumption].
    + destruct (Ascii.eqb_spec a PyStr.LF) as [->|]; [|discriminate].
      repeat split; [constructor; now right | assumption].
  - exists "", s, []. simpl. rewrite app_nil_r, Nat.add_0_r.
    repeat split; [constructor | assumption].
Qed.

(** Completeness: when the matcher fails, the continuation fails after
    every match in the sense of [matches]. *)
Lemma run_complete :
  forall r pos s1 s2 c,
    matches r pos s1 s2 c ->
    forall caps (k : @cont R),
      run r pos (s1 ++ s2) caps k = None ->
      k (pos + String.length s1)%nat s2 (caps ++ c)%list = None.
Proof.
  induction 1 as [c pos s2|p a pos s2 Hp|r1 r2 pos s1 s1' s2 c1 c2 M1 IH1 M2 IH2
                 |g p pos s1 s2 Hall|r pos s1 s2 c M IH|s2|pos s2 Hs|pos s2];
    intros caps k H; simpl in H |- *.
  - rewrite Ascii.eqb_refl in H. now rewrite app_nil_r, Nat.add_1_r.
  - rewrite Hp in H. now rewrite app_nil_r, Nat.add_1_r.
  - rewrite append_assoc in H. apply IH1 in H. apply IH2 in H.
    now rewrite length_append, Nat.add_assoc, app_assoc.
  - rewrite app_nil_r. destruct g.
    + now apply (star_greedy_complete p _ pos caps k H s1 s2).
    + now apply (star_lazy_complete p _ pos caps k H s1 s2).
  - apply IH in H.
    replace (pos + String.length s1 - pos)%nat with (String.length s1) in H by lia.
    rewrite substring_0_length in H. now rewrite app_assoc.
  - now rewrite app_nil_r.
  - rewrite app_nil_r, Nat.add_0_r.
    destruct Hs as [-> | ->]; simpl in H; assumption.
  - now rewrite app_nil_r, Nat.add_0_r.
Qed.

End MatcherFacts.

(* ================================================================== *)
(** * The filename pattern *)
(* ================================================================== *)

Lemma matches_cast r pos s1 s1' s2 c c' :
  s1 = s1' -> c = c' -> matches r pos s1 s2 c -> matches r pos s1' s2 c'.
Proof. now intros -> ->. Qed.

Lemma matches_lit (w : string) :
  forall pos s2, matches (lit w) pos w s2 [].
Proof.
  induction w as [|c w IH]; intros pos s2; simpl.
  - constructor.
  - apply (matches_cast _ _ (String c "" ++ w) _ _ ([] ++ [])%list);
      [reflexivity | reflexivity |].
    constructor; [constructor | apply IH].
Qed.

Lemma matches_lit_inv (w : string) :
  forall pos s1 s2 c, matches (lit w) pos s1 s2 c -> s1 = w /\ c = [].
Proof.
  induction w as [|x w IH]; intros pos s1 s2 c H; simpl in H.
  - inversion H; subst. now split.
  - inversion H as [| |r1 r2 p0 a b s2' c1 c2 M1 M2| | | | |]; subst.
    inversion M1; subst. apply IH in M2. destruct M2 as [-> ->]. now split.
Qed.

(** The last character tells [.html] from [.html] followed by a line feed. *)
Lemma html_tail_conflict (p q : string) : p ++ ".html" = q ++ ".html" ++ nl -> False.
Proof.
  intro H. apply (f_equal list_ascii_of_string) in H.
  rewrite !list_of_append in H. apply (f_equal (@rev ascii)) in H.
  rewrite !rev_app_distr in H. simpl in H. discriminate.
Qed.

Lemma html_tail_unique (g g' t t' : string) :
  (t = "" \/ t = nl) -> (t' = "" \/ t' = nl) ->
  g ++ ".html" ++ t = g' ++ ".html" ++ t' -> g = g' /\ t = t'.
Proof.
  intros [-> | ->] [-> | ->] H.
  - split; [|reflexivity]. now apply append_inv_tail in H.
  - exfalso. now apply (html_tail_conflict g g').
  - exfalso. symmetry in H. now apply (html_tail_conflict g' g).
  - split; [|reflexivity]. now apply append_inv_tail in H.
Qed.

(** A match of the filename pattern: three digits, a hyphen, a slug on
    one line, the extension, and nothing after it but possibly one line
    feed; the groups are the digits and the slug. *)
Lemma slide_pattern_sound (f : string) (caps : list string) :
  re_match slide_pattern f = Some caps ->
  exists a b c g tail,
    f = String a (String b (String c (String "-" (g ++ ".html" ++ tail))))
    /\ PyStr.is_digit a = true /\ PyStr.is_digit b = true
    /\ PyStr.is_digit c = true
    /\ g <> "" /\ PyStr.forall_chars dot g = true
    /\ (tail = "" \/ tail = nl)
    /\ caps = [String a (String b (String c "")); g].
Proof.
  unfold re_match. intro H. apply run_sound in H.
  destruct H as [s1 [s2 [c [-> [M H]]]]]. simpl in H. injection H as <-.
  unfold slide_pattern in M.
  inversion M as [| |? ? ? ? ? ? ? ? Mb M1| | | | |]; subst; clear M.
  inversion Mb; subst; clear Mb.
  inversion M1 as [| |? ? ? ? ? ? ? ? Mg M2| | | | |]; subst; clear M1.
  inversion Mg as [| | | |? ? ? ? ? Md| | |]; subst; clear Mg.
  inversion Md as [| |? ? ? ? ? ? ? ? Md1 Md'| | | | |]; subst; clear Md.
  inversion Md1; subst; clear Md1.
  inversion Md' as [| |? ? ? ? ? ? ? ? Md2 Md3| | | | |]; subst; clear Md'.
  inversion Md2; subst; clear Md2. inversion Md3; subst; clear Md3.
  inversion M2 as [| |? ? ? ? ? ? ? ? Mh M3| | | | |]; subst; clear M2.
  inversion Mh; subst; clear Mh.
  inversion M3 as [| |? ? ? ? ? ? ? ? Ms M4| | | | |]; subst; clear M3.
  inversion Ms as [| | | |? ? ? ? ? Ms'| | |]; subst; clear Ms.
  inversion Ms' as [| |? ? ? ? ? ? ? ? Mx My| | | | |]; subst; clear Ms'.
  inversion Mx; subst; clear Mx. inversion My; subst; clear My.
  inversion M4 as [| |? ? ? ? ? ? ? ? Ml Me| | | | |]; subst; clear M4.
  apply (matches_lit_inv ".html") in Ml. destruct Ml as [-> ->].
  inversion Me; subst; clear Me.
  match goal with
  | Hd1 : PyStr.is_digit ?a = true, Hd2 : PyStr.is_digit ?b = true,
    Hd3 : PyStr.is_digit ?c = true, Hx : dot ?x = true,
    Hg : PyStr.forall_chars dot ?g = true, Ht : _ \/ _ |- _ =>
      exists a, b, c, (String x g), s2
  end.
  simpl. rewrite !append_assoc. simpl.
  repeat split; try assumption.
  - discriminate.
  - match goal with Hx : dot _ = true |- _ => now rewrite Hx end.
Qed.

Lemma matches_three_digits (a b c : ascii) pos s2 :
  PyStr.is_digit a = true -> PyStr.is_digit b = true ->
  PyStr.is_digit c = true ->
  matches (Seq (Cls PyStr.is_digit)
             (Seq (Cls PyStr.is_digit) (Cls PyStr.is_digit)))
    pos (String a (String b (String c ""))) s2 [].
Proof.
  intros Ha Hb Hc.
  apply (matches_cast _ _ (String a "" ++ String b "" ++ String c "") _ _
           ([] ++ [] ++ [])%list); [reflexivity | reflexivity |].
  constructor; [now constructor|]. constructor; now constructor.
Qed.

Lemma matches_one_line (p : ascii -> bool) (g : bool) (x : ascii) (w : string) pos s2 :
  p x = true -> PyStr.forall_chars p w = true ->
  matches (Seq (Cls p) (Star g p)) pos (String x w) s2 [].
Proof.
  intros Hx Hw.
  apply (matches_cast _ _ (String x "" ++ w) _ _ ([] ++ [])%list);
    [reflexivity | reflexivity |].
  constructor; now constructor.
Qed.

Lemma slide_pattern_matches (a b c : ascii) (g tail : string) :
  PyStr.is_digit a = true -> PyStr.is_digit b = true ->
  PyStr.is_digit c = true ->
  g <> "" -> PyStr.forall_chars dot g = true ->
  (tail = "" \/ tail = nl) ->
  matches slide_pattern 0
    (String a (String b (String c (String "-" (g ++ ".html")))))
    tail [String a (String b (String c "")); g].
Proof.
  intros Ha Hb Hc Hg Hdot Ht.
  destruct g as [|x g]; [now elim Hg|]. simpl in Hdot.
  apply andb_true_iff in Hdot. destruct Hdot as [Hx Hdot].
  unfold slide_pattern.
  apply (matches_cast _ _
           ("" ++ String a (String b (String c ""))
               ++ String "-" "" ++ String x g ++ ".html" ++ "") _ _
           ([] ++ ([] ++ [String a (String b (String c ""))])
               ++ [] ++ ([] ++ [String x g]) ++ [] ++ [])%list);
    [reflexivity | reflexivity |].
  constructor; [constructor|].
  constructor; [apply M_Group; now apply matches_three_digits|].
  constructor; [constructor|].
  constructor; [apply M_Group; now apply matches_one_line|].
  constructor; [apply matches_lit | now constructor].
Qed.

Lemma slide_pattern_complete (a b c : ascii) (g tail : string) :
  PyStr.is_digit a = true -> PyStr.is_digit b = true ->
  PyStr.is_digit c = true ->
  g <> "" -> PyStr.forall_chars dot g = true ->
  (tail = "" \/ tail = nl) ->
  re_match slide_pattern
    (String a (String b (String c (String "-" (g ++ ".html" ++ tail)))))
  = Some [String a (String b (String c "")); g].
Proof.
  intros Ha Hb Hc Hg Hdot Ht.
  pose proof (slide_pattern_matches a b c g tail Ha Hb Hc Hg Hdot Ht) as M.
  destruct (re_match slide_pattern
              (String a (String b (String c (String "-" (g ++ ".html" ++ tail))))))
    as [caps|] eqn:E.
  - apply slide_pattern_sound in E.
    destruct E as [a' [b' [c' [g' [t' [Hf [_ [_ [_ [_ [_ [Ht' ->]]]]]]]]]]]].
    injection Hf as <- <- <- Hf.
    apply html_tail_unique in Hf; try assumption.
    destruct Hf as [<- _]. reflexivity.
  - unfold re_match in E.
    replace (String a (String b (String c (String "-" (g ++ ".html" ++ tail)))))
      with (String a (String b (String c (String "-" (g ++ ".html")))) ++ tail)
      in E by (simpl; now rewrite append_assoc).
    apply (run_complete _ _ _ _ _ M [] final_groups) in E.
    discriminate.
Qed.

(** ** Digits *)

Lemma digit_ind (P : ascii -> Prop) :
  P "0"%char -> P "1"%char -> P "2"%char -> P "3"%char -> P "4"%char ->
  P "5"%char -> P "6"%char -> P "7"%char -> P "8"%char -> P "9"%char ->
  forall a, PyStr.is_digit a = true -> P a.
Proof.
  intros H0 H1 H2 H3 H4 H5 H6 H7 H8 H9 a Ha.
  unfold PyStr.is_digit in Ha. apply andb_true_iff in Ha.
  destruct Ha as [Hlo Hhi].
  apply Nat.leb_le in Hlo. apply Nat.leb_le in Hhi.
  rewrite <- (ascii_nat_embedding a).
  remember (nat_of_ascii a) as n eqn:En. clear En a.
  assert (Hn : (n = 48 \/ n = 49 \/ n = 50 \/ n = 51 \/ n = 52 \/ n = 53
               \/ n = 54 \/ n = 55 \/ n = 56 \/ n = 57)%nat) by lia.
  repeat (destruct Hn as [-> | Hn]; [assumption|]). now subst.
Qed.

Lemma digit_char_is_digit (d : N) :
  (d < 10)%N -> PyStr.is_digit (PyStr.digit_char d) = true.
Proof.
  intro H.
  assert (Hd : (d = 0 \/ d = 1 \/ d = 2 \/ d = 3 \/ d = 4 \/ d = 5 \/ d = 6
               \/ d = 7 \/ d = 8 \/ d = 9)%N) by lia.
  repeat (destruct Hd as [-> | Hd]; [reflexivity|]). now subst.
Qed.




(** ** Well-formed names *)

Lemma slug_then_html_iff (rest : string) :
  slug_then_html rest = true
  <-> exists g, rest = g ++ ".html" /\ g <> ""
                /\ PyStr.forall_chars dot g = true.
Proof.
  induction rest as [|x r IH]; cbn [slug_then_html].
  - split; [discriminate|]. intros [g [H [Hg _]]].
    destruct g; [now elim Hg | discriminate].
  - rewrite andb_true_iff, orb_true_iff, IH. split.
    + intros [Hx [Hr | [g [-> [Hg Hd]]]]].
      * apply String.eqb_eq in Hr. subst r. exists (String x "").
        cbn. rewrite Hx. now repeat split.
      * exists (String x g). cbn. rewrite Hx, Hd. now repeat split.
    + intros [g [H [Hg Hd]]]. destruct g as [|y g]; [now elim Hg|].
      cbn in H, Hd. injection H as <- ->.
      apply andb_true_iff in Hd. destruct Hd as [Hx Hd].
      split; [assumption|]. destruct g as [|z g].
      * left. reflexivity.
      * right. exists (String z g). now repeat split.
Qed.

Lemma well_formed_iff (f : string) :
  well_formed_name f = true
  <-> exists a b c g,
        f = String a (String b (String c (String "-" (g ++ ".html"))))
        /\ PyStr.is_digit a = true /\ PyStr.is_digit b = true
        /\ PyStr.is_digit c = true
        /\ g <> "" /\ PyStr.forall_chars dot g = true.
Proof.
  split.
  - destruct f as [|a [|b [|c [|h rest]]]]; try discriminate.
    cbn [well_formed_name].
    destruct (Ascii.eqb_spec h "-") as [->|Hne].
    + rewrite !andb_true_iff, slug_then_html_iff.
      intros [[[Ha Hb] Hc] [g [-> [Hg Hd]]]].
      exists a, b, c, g. now repeat split.
    + intro H. exfalso. revert H.
      destruct h as [[] [] [] [] [] [] [] []]; try discriminate.
      now elim Hne.
  - intros [a [b [c [g [-> [Ha [Hb [Hc [Hg Hd]]]]]]]]].
    cbn [well_formed_name]. rewrite Ha, Hb, Hc. cbn.
    apply slug_then_html_iff. now exists g.
Qed.

Lemma well_formed_is_html (f : string) :
  well_formed_name f = true -> is_html_file f = true.
Proof.
  intro H. apply well_formed_iff in H.
  destruct H as [a [b [c [g [-> [Ha _]]]]]].
  unfold is_html_file. apply andb_true_iff. split.
  - apply endswith_iff. now exists (String a (String b (String c (String "-" g)))).
  - apply negb_true_iff, String.eqb_neq. intro E. injection E as -> _.
    discriminate.
Qed.

(** Among the names that pass the [.html] filter, the pattern accepts
    exactly the well-formed ones, with the digits and the slug as its
    groups. *)
Lemma html_match_well_formed (f : string) (caps : list string) :
  is_html_file f = true ->
  re_match slide_pattern f = Some caps ->
  well_formed_name f = true
  /\ exists n g, caps = [n; g] /\ f = n ++ "-" ++ g ++ ".html"
                 /\ String.length n = 3%nat
                 /\ PyStr.forall_chars PyStr.is_digit n = true.
Proof.
  intros Hh Hm. apply slide_pattern_sound in Hm.
  destruct Hm as [a [b [c [g [tail [-> [Ha [Hb [Hc [Hg [Hd [Ht ->]]]]]]]]]]]].
  assert (tail = "") as ->.
  { destruct Ht as [-> | ->]; [reflexivity|]. exfalso.
    unfold is_html_file in Hh. apply andb_true_iff in Hh.
    destruct Hh as [He _]. apply endswith_iff in He. destruct He as [p Hp].
    apply (html_tail_conflict p (String a (String b (String c (String "-" g))))).
    rewrite <- Hp. reflexivity. }
  split.
  - apply well_formed_iff. exists a, b, c, g. now repeat split.
  - exists (String a (String b (String c ""))), g. cbn.
    rewrite Ha, Hb, Hc. now repeat split.
Qed.

Lemma well_formed_match (f : string) :
  well_formed_name f = true ->
  exists n g, re_match slide_pattern f = Some [n; g]
              /\ f = n ++ "-" ++ g ++ ".html"
              /\ String.length n = 3%nat
              /\ PyStr.forall_chars PyStr.is_digit n = true.
Proof.
  intro H. apply well_formed_iff in H.
  destruct H as [a [b [c [g [-> [Ha [Hb [Hc [Hg Hd]]]]]]]]].
  exists (String a (String b (String c ""))), g.
  split; [|cbn; rewrite Ha, Hb, Hc; now repeat split].
  rewrite <- (slide_pattern_complete a b c g "" Ha Hb Hc Hg Hd (or_introl eq_refl)).
  now rewrite append_nil_r.
Qed.

(* ================================================================== *)
(** * Sorting names *)
(* ================================================================== *)

Lemma ascii_compare_refl (a : ascii) : Ascii.compare a a = Eq.
Proof. unfold Ascii.compare. apply N.compare_refl. Qed.

Lemma string_compare_refl (s : string) : String.compare s s = Eq.
Proof.
  induction s as [|c s IH]; simpl; [reflexivity|].
  now rewrite ascii_compare_refl.
Qed.

Lemma name_le_refl (s : string) : name_le s s.
Proof. unfold name_le, String.leb. now rewrite string_compare_refl. Qed.

Lemma ascii_compare_lt_trans (a b c : ascii) :
  Ascii.compare a b = Lt -> Ascii.compare b c = Lt -> Ascii.compare a c = Lt.
Proof.
  unfold Ascii.compare. rewrite !N.compare_lt_iff. apply N.lt_trans.
Qed.

Lemma string_compare_lt_trans :
  forall a b c, String.compare a b = Lt -> String.compare b c = Lt ->
                String.compare a c = Lt.
Proof.
  induction a as [|x a IH]; intros [|y b] [|z c] H1 H2; simpl in *;
    try discriminate; try reflexivity.
  destruct (Ascii.compare x y) eqn:Exy; try discriminate;
    destruct (Ascii.compare y z) eqn:Eyz; try discriminate.
  - apply Ascii.compare_eq_iff in Exy, Eyz. subst.
    rewrite ascii_compare_refl. now apply (IH b c).
  - apply Ascii.compare_eq_iff in Exy. subst. now rewrite Eyz.
  - apply Ascii.compare_eq_iff in Eyz. subst. now rewrite Exy.
  - now rewrite (ascii_compare_lt_trans x y z).
Qed.

Lemma name_le_cases (a b : string) :
  name_le a b <-> String.compare a b = Lt \/ a = b.
Proof.
  unfold name_le, String.leb. split.
  - destruct (String.compare a b) eqn:E; try discriminate; intros _.
    + right. now apply String.compare_eq_iff.
    + now left.
  - intros [-> | ->]; [reflexivity|]. now rewrite string_compare_refl.
Qed.

Lemma name_le_trans (a b c : string) : name_le a b -> name_le b c -> name_le a c.
Proof.
  rewrite !name_le_cases. intros [H1 | ->] [H2 | ->]; auto.
  left. now apply (string_compare_lt_trans a b c).
Qed.

Lemma name_le_antisym (a b : string) : name_le a b -> name_le b a -> a = b.
Proof. apply String.leb_antisym. Qed.

Lemma name_le_total (a b : string) : name_le a b \/ name_le b a.
Proof. apply String.leb_total. Qed.

Lemma insert_sorted_perm (x : string) (l : list string) :
  Permutation (x :: l) (insert_sorted x l).
Proof.
  induction l as [|y t IH]; simpl; [reflexivity|].
  destruct (String.leb x y); [reflexivity|].
  rewrite perm_swap. now apply perm_skip.
Qed.

Lemma sort_names_perm (l : list string) : Permutation l (sort_names l).
Proof.
  induction l as [|x t IH]; simpl; [reflexivity|].
  rewrite <- insert_sorted_perm. now apply perm_skip.
Qed.

Lemma insert_sorted_sorted (x : string) (l : list string) :
  StronglySorted name_le l -> StronglySorted name_le (insert_sorted x l).
Proof.
  induction 1 as [|y t Ht IH Hy]; simpl.
  - repeat constructor.
  - destruct (String.leb x y) eqn:E.
    + constructor; [now constructor|]. constructor; [exact E|].
      eapply Forall_impl; [|exact Hy]. intros z Hz.
      now apply (name_le_trans x y z).
    + constructor; [exact IH|].
      apply (Permutation_Forall (insert_sorted_perm x t)).
      constructor; [|exact Hy].
      destruct (name_le_total x y) as [H|H]; [|exact H].
      unfold name_le in H. congruence.
Qed.

Lemma sort_names_sorted (l : list string) : StronglySorted name_le (sort_names l).
Proof.
  induction l as [|x t IH]; simpl; [constructor|].
  now apply insert_sorted_sorted.
Qed.

(** A list has one sorted arrangement only, so any sorting algorithm,
    Python's included, returns what [sort_names] returns. *)
Lemma sorted_perm_unique :
  forall l1 l2, StronglySorted name_le l1 -> StronglySorted name_le l2 ->
                Permutation l1 l2 -> l1 = l2.
Proof.
  induction l1 as [|x t IH]; intros l2 S1 S2 P.
  - apply Permutation_nil in P. now subst.
  - destruct l2 as [|y u].
    + symmetry in P. now apply Permutation_nil_cons in P.
    + apply StronglySorted_inv in S1. destruct S1 as [S1 Hx].
      apply StronglySorted_inv in S2. destruct S2 as [S2 Hy].
      assert (x = y) as ->.
      { apply name_le_antisym.
        - assert (Hin : In y (x :: t))
            by (apply (Permutation_in y (Permutation_sym P)); now left).
          destruct Hin as [-> | Hin]; [apply name_le_refl|].
          rewrite Forall_forall in Hx. now apply Hx.
        - assert (Hin : In x (y :: u))
            by (apply (Permutation_in x P); now left).
          destruct Hin as [-> | Hin]; [apply name_le_refl|].
          rewrite Forall_forall in Hy. now apply Hy. }
      f_equal. apply IH; try assumption.
      now apply Permutation_cons_inv in P.
Qed.

Lemma sort_names_perm_eq (l1 l2 : list string) :
  Permutation l1 l2 -> sort_names l1 = sort_names l2.
Proof.
  intro P. apply sorted_perm_unique; try apply sort_names_sorted.
  rewrite <- (sort_names_perm l1), <- (sort_names_perm l2). exact P.
Qed.

Lemma filter_perm {A : Type} (p : A -> bool) (l1 l2 : list A) :
  Permutation l1 l2 -> Permutation (filter p l1) (filter p l2).
Proof.
  induction 1 as [|x l l' P IH|x y l|l l' l'' P1 IH1 P2 IH2]; simpl.
  - constructor.
  - destruct (p x); [now constructor | assumption].
  - destruct (p x), (p y); try reflexivity. apply perm_swap.
  - now transitivity (filter p l').
Qed.


(* ================================================================== *)
(** * Discovery *)
(* ================================================================== *)

Lemma discover_file_well_formed (d : Dir) (f : string) :
  well_formed_name f = true ->
  exists n g, re_match slide_pattern f = Some [n; g]
              /\ f = n ++ "-" ++ g ++ ".html"
              /\ String.length n = 3%nat
              /\ PyStr.forall_chars PyStr.is_digit n = true
              /\ fst (discover_file d f) = [slide_for d f n g].
Proof.
  intro H. destruct (well_formed_match f H) as [n [g [Hm [Hf [Hl Hd]]]]].
  exists n, g. repeat split; try assumption.
  unfold discover_file, slide_for. rewrite Hm.
  destruct (dir_read d f); reflexivity.
Qed.

Lemma discover_file_rejected (d : Dir) (f : string) :
  is_html_file f = true -> well_formed_name f = false ->
  discover_file d f = ([], [Echo false (MsgSkipping f)]).
Proof.
  intros Hh Hw. unfold discover_file.
  destruct (re_match slide_pattern f) as [caps|] eqn:E; [|reflexivity].
  apply (html_match_well_formed f caps Hh) in E. destruct E as [E _].
  congruence.
Qed.

Lemma discover_loop_filenames (d : Dir) (files : list string) :
  Forall (fun f => is_html_file f = true) files ->
  map filename (fst (discover_loop d files)) = filter well_formed_name files.
Proof.
  induction 1 as [|f rest Hf Hrest IH]; simpl; [reflexivity|].
  destruct (discover_file d f) as [s1 e1] eqn:E1.
  destruct (discover_loop d rest) as [s2 e2] eqn:E2. simpl in *.
  rewrite map_app, IH.
  destruct (well_formed_name f) eqn:W.
  - destruct (discover_file_well_formed d f W) as [n [g [_ [_ [_ [_ Hs]]]]]].
    rewrite E1 in Hs. simpl in Hs. subst s1. simpl.
    unfold slide_for. destruct (dir_read d f); reflexivity.
  - rewrite (discover_file_rejected d f Hf W) in E1. injection E1 as <- _.
    reflexivity.
Qed.

Lemma filter_html_forall (l : list string) :
  Forall (fun f => is_html_file f = true) (filter is_html_file l).
Proof. apply Forall_forall. intros f Hf. now apply filter_In in Hf. Qed.

Lemma filter_well_formed_html (l : list string) :
  filter well_formed_name (filter is_html_file l) = filter well_formed_name l.
Proof.
  induction l as [|f t IH]; simpl; [reflexivity|].
  destruct (is_html_file f) eqn:H; simpl; rewrite IH; [reflexivity|].
  destruct (well_formed_name f) eqn:W; [|reflexivity].
  apply well_formed_is_html in W. congruence.
Qed.

(** The names of the discovered slides: the well-formed names of the
    directory, sorted. *)
Lemma discover_slides_filenames (d : Dir) :
  map filename (fst (discover_slides d))
  = filter well_formed_name (sort_names (filter is_html_file (dir_files d))).
Proof.
  unfold discover_slides, dir_files.
  destruct (dir_listing d) as [listing|]; [|reflexivity].
  destruct (filter is_html_file listing) as [|f0 fs] eqn:E; [reflexivity|].
  apply discover_loop_filenames.
  apply (Permutation_Forall (sort_names_perm (f0 :: fs))).
  rewrite <- E. apply filter_html_forall.
Qed.

Lemma discover_slides_filenames_perm (d : Dir) :
  Permutation (map filename (fst (discover_slides d)))
              (filter well_formed_name (dir_files d)).
Proof.
  rewrite discover_slides_filenames, <- (filter_well_formed_html (dir_files d)).
  apply filter_perm. symmetry. apply sort_names_perm.
Qed.

Lemma discover_loop_in (d : Dir) (files : list string) (s : Slide) :
  In s (fst (discover_loop d files)) ->
  exists f, In f files /\ In s (fst (discover_file d f)).
Proof.
  induction files as [|f rest IH]; simpl; [intros []|].
  destruct (discover_file d f) as [s1 e1] eqn:E1.
  destruct (discover_loop d rest) as [s2 e2] eqn:E2. simpl in *.
  rewrite in_app_iff. intros [H | H].
  - exists f. rewrite E1. now split; [left|].
  - destruct (IH H) as [f' [Hin Hs]]. exists f'. now split; [right|].
Qed.

Lemma discover_loop_in_rev (d : Dir) (files : list string) (f : string) (s : Slide) :
  In f files -> In s (fst (discover_file d f)) ->
  In s (fst (discover_loop d files)).
Proof.
  induction files as [|f' rest IH]; simpl; [intros []|].
  destruct (discover_file d f') as [s1 e1] eqn:E1.
  destruct (discover_loop d rest) as [s2 e2] eqn:E2. simpl in *.
  rewrite in_app_iff. intros [-> | Hin] Hs.
  - left. now rewrite E1 in Hs.
  - right. now apply IH.
Qed.

Lemma discover_slides_loop (d : Dir) :
  fst (discover_slides d)
  = fst (discover_loop d (sort_names (filter is_html_file (dir_files d)))).
Proof.
  unfold discover_slides, dir_files.
  destruct (dir_listing d) as [listing|]; [|reflexivity].
  destruct (filter is_html_file listing); reflexivity.
Qed.

(** Every discovered slide is the slide of a well-formed name of the
    directory, and carries the digits of that name as its number. *)
Lemma discovered_slide_shape (d : Dir) (s : Slide) :
  In s (fst (discover_slides d)) ->
  exists g,
    In (filename s) (dir_files d)
    /\ well_formed_name (filename s) = true
    /\ re_match slide_pattern (filename s) = Some [number s; g]
    /\ filename s = number s ++ "-" ++ g ++ ".html"
    /\ String.length (number s) = 3%nat
    /\ PyStr.forall_chars PyStr.is_digit (number s) = true
    /\ s = slide_for d (filename s) (number s) g.
Proof.
  rewrite discover_slides_loop. intro H.
  apply discover_loop_in in H. destruct H as [f [Hf Hs]].
  apply (Permutation_in f (Permutation_sym (sort_names_perm _))) in Hf.
  apply filter_In in Hf. destruct Hf as [Hin Hh].
  destruct (well_formed_name f) eqn:W.
  - destruct (discover_file_well_formed d f W) as [n [g [Hm [Hn [Hl [Hd E]]]]]].
    rewrite E in Hs. destruct Hs as [<- | []].
    assert (Ef : filename (slide_for d f n g) = f)
      by (unfold slide_for; destruct (dir_read d f); reflexivity).
    assert (En : number (slide_for d f n g) = n)
      by (unfold slide_for; destruct (dir_read d f); reflexivity).
    exists g. rewrite Ef, En. now repeat split.
  - rewrite (discover_file_rejected d f Hh W) in Hs. destruct Hs.
Qed.

(** A well-formed name of the directory has its slide in the result. *)
Lemma well_formed_discovered (d : Dir) (f : string) :
  In f (dir_files d) -> well_formed_name f = true ->
  exists n g, re_match slide_pattern f = Some [n; g]
              /\ f = n ++ "-" ++ g ++ ".html"
              /\ In (slide_for d f n g) (fst (discover_slides d)).
Proof.
  intros Hin W.
  destruct (discover_file_well_formed d f W) as [n [g [Hm [Hn [_ [_ E]]]]]].
  exists n, g. repeat split; try assumption.
  rewrite discover_slides_loop. apply (discover_loop_in_rev d _ f).
  - apply (Permutation_in f (sort_names_perm _)).
    apply filter_In. split; [assumption | now apply well_formed_is_html].
  - rewrite E. now left.
Qed.






(* ================================================================== *)
(** * Searching the title marker *)
(* ================================================================== *)







(* ================================================================== *)
(** * Section and title of a discovered slide *)
(* ================================================================== *)

Lemma slide_of_name (d : Dir) (f : string) :
  In f (dir_files d) -> well_formed_name f = true ->
  exists s, In s (fst (discover_slides d)) /\ filename s = f.
Proof.
  intros Hin W.
  destruct (well_formed_discovered d f Hin W) as [n [g [_ [_ Hs]]]].
  exists (slide_for d f n g). split; [assumption|].
  unfold slide_for. destruct (dir_read d f); reflexivity.
Qed.



(** C2.  A well-formed name whose file can be read has a slide, and that
    slide is in section "Appendix" when the text "Appendix" occurs
    somewhere in the content and in section "Main" when it does not;
    every discovered slide is in one of these two sections. *)
Theorem section_by_keyword (d : Dir) (f content : string) :
  In f (dir_files d) -> well_formed_name f = true ->
  dir_read d f = Some content ->
  (exists s, In s (fst (discover_slides d)) /\ filename s = f)
  /\ (forall s, In s (fst (discover_slides d)) -> filename s = f ->
        ((exists a b, content = a ++ "Appendix" ++ b) -> section s = "Appendix")
        /\ (~ (exists a b, content = a ++ "Appendix" ++ b) -> section s = "Main"))
  /\ (forall s, In s (fst (discover_slides d)) ->
        section s = "Main" \/ section s = "Appendix").
Proof.
  intros Hin W Hr. split; [now apply slide_of_name|]. split.
  - intros s Hs Hf.
    destruct (discovered_slide_shape d s Hs) as [g [_ [_ [_ [_ [_ [_ E]]]]]]].
    rewrite Hf in E. unfold slide_for in E. rewrite Hr in E.
    rewrite <- contains_iff. rewrite E. cbn [section].
    destruct (PyStr.contains "Appendix" content); split; intro H;
      try reflexivity; try discriminate. now elim H.
  - intros s Hs.
    destruct (discovered_slide_shape d s Hs) as [g [_ [_ [_ [_ [_ [_ E]]]]]]].
    rewrite E. unfold slide_for.
    destruct (dir_read d (filename s)) as [c|]; cbn [section].
    + destruct (PyStr.contains "Appendix" c); auto.
    + destruct (over_threshold (number s)); auto.
Qed.



(* ================================================================== *)
(** * Section groups of the sidebar *)
(* ================================================================== *)

Lemma sidebar_loop_current (cur : option string) (sec : string) :
  (if same_as cur sec then cur else Some sec) = Some sec.
Proof.
  destruct cur as [c|]; simpl; [|reflexivity].
  destruct (String.eqb_spec sec c) as [->|]; reflexivity.
Qed.

Lemma sidebar_loop_unfold (i : nat) (cur : option string) (s : Slide)
    (rest : list Slide) :
  sidebar_loop i cur (s :: rest)
  = ((if same_as cur (section s) then []
      else match cur with
           | Some _ => [CloseSection; OpenSection (section s)]
           | None => [OpenSection (section s)]
           end)
       ++ SlideItem i s :: fst (sidebar_loop (S i) (Some (section s)) rest),
     snd (sidebar_loop (S i) (Some (section s)) rest))%list.
Proof.
  cbn [sidebar_loop]. fold (same_as cur (section s)).
  rewrite sidebar_loop_current.
  now destruct (sidebar_loop (S i) (Some (section s)) rest).
Qed.



Lemma sidebar_loop_final :
  forall slides i cur,
    is_some (snd (sidebar_loop i cur slides))
    = match slides with [] => is_some cur | _ => 1%nat end.
Proof.
  induction slides as [|s rest IH]; intros i cur; [reflexivity|].
  rewrite sidebar_loop_unfold. cbn [snd]. rewrite IH.
  now destruct rest.
Qed.








Lemma sidebar_items_loop (slides : list Slide) :
  sidebar_items slides
  = match slides with
    | [] => []
    | _ => (fst (sidebar_loop 0%nat None slides) ++ [CloseSection])%list
    end.
Proof.
  unfold sidebar_items.
  pose proof (sidebar_loop_final slides 0%nat None) as F.
  destruct (sidebar_loop 0%nat None slides) as [items final] eqn:E.
  cbn [fst snd] in *. destruct slides as [|s rest].
  - cbn in E. now injection E as <- <-.
  - destruct final; [reflexivity | discriminate].
Qed.



(* ================================================================== *)
(** * Independence of the listing order *)
(* ================================================================== *)

Lemma discover_file_read_ext (d1 d2 : Dir) (f : string) :
  dir_read d1 f = dir_read d2 f -> discover_file d1 f = discover_file d2 f.
Proof. unfold discover_file. now intros ->. Qed.

Lemma discover_loop_read_ext (d1 d2 : Dir) (files : list string) :
  (forall f, In f files -> dir_read d1 f = dir_read d2 f) ->
  discover_loop d1 files = discover_loop d2 files.
Proof.
  induction files as [|f rest IH]; intro H; [reflexivity|].
  cbn [discover_loop].
  rewrite (discover_file_read_ext d1 d2 f) by (apply H; now left).
  rewrite IH by (intros g Hg; apply H; now right). reflexivity.
Qed.

Lemma discover_slides_ext (d1 d2 : Dir) :
  same_listing d1 d2 ->
  (forall f, In f (dir_files d1) -> dir_read d1 f = dir_read d2 f) ->
  discover_slides d1 = discover_slides d2.
Proof.
  unfold same_listing, discover_slides, dir_files.
  destruct (dir_listing d1) as [l1|], (dir_listing d2) as [l2|];
    try contradiction; [|reflexivity].
  intros P H.
  pose proof (filter_perm is_html_file l1 l2 P) as P'.
  destruct (filter is_html_file l1) as [|f1 r1] eqn:E1.
  - apply Permutation_nil in P'. now rewrite P'.
  - destruct (filter is_html_file l2) as [|f2 r2] eqn:E2.
    + symmetry in P'. now apply Permutation_nil in P'.
    + rewrite <- (sort_names_perm_eq _ _ P').
      apply discover_loop_read_ext. intros f Hf. apply H.
      apply (Permutation_in f (Permutation_sym (sort_names_perm _))) in Hf.
      rewrite <- E1 in Hf. now apply filter_In in Hf.
Qed.

Lemma create_navigation_html_name (tpl : Templates) (slides : list Slide)
    (page_title : string) (d1 d2 : Dir) :
  dir_name d1 = dir_name d2 ->
  create_navigation_html tpl slides page_title d1
  = create_navigation_html tpl slides page_title d2.
Proof.
  intro N. unfold create_navigation_html, nav_fields, sidebar_html,
    slides_path_prefix. now rewrite N.
Qed.

(** C5.  The navigation page is a function of the directory content and
    the page title: two directories with the same name, the same files
    and the same readable contents, listed in any two orders, give the
    same discovered slides, the same messages and the same page text. *)
Theorem navigation_independent_of_listing_order (tpl : Templates)
    (page_title : string) (d1 d2 : Dir) :
  dir_name d1 = dir_name d2 ->
  same_listing d1 d2 ->
  (forall f, In f (dir_files d1) -> dir_read d1 f = dir_read d2 f) ->
  discover_slides d1 = discover_slides d2
  /\ create_navigation_html tpl (fst (discover_slides d1)) page_title d1
     = create_navigation_html tpl (fst (discover_slides d2)) page_title d2.
Proof.
  intros N P H. pose proof (discover_slides_ext d1 d2 P H) as E.
  split; [exact E|]. rewrite E. now apply create_navigation_html_name.
Qed.

(* ================================================================== *)
(** * Running the generator again *)
(* ================================================================== *)

Lemma discover_slides_html_ext (d1 d2 : Dir) :
  match dir_listing d1, dir_listing d2 with
  | Some l1, Some l2 =>
      Permutation (filter is_html_file l1) (filter is_html_file l2)
  | None, None => True
  | _, _ => False
  end ->
  (forall f, In f (dir_files d1) -> is_html_file f = true ->
             dir_read d1 f = dir_read d2 f) ->
  discover_slides d1 = discover_slides d2.
Proof.
  unfold discover_slides, dir_files.
  destruct (dir_listing d1) as [l1|], (dir_listing d2) as [l2|];
    try contradiction; [|reflexivity].
  intros P H.
  destruct (filter is_html_file l1) as [|f1 r1] eqn:E1.
  - apply Permutation_nil in P. now rewrite P.
  - destruct (filter is_html_file l2) as [|f2 r2] eqn:E2.
    + symmetry in P. now apply Permutation_nil in P.
    + rewrite <- (sort_names_perm_eq _ _ P).
      apply discover_loop_read_ext. intros f Hf.
      apply (Permutation_in f (Permutation_sym (sort_names_perm _))) in Hf.
      rewrite <- E1 in Hf. apply filter_In in Hf. now apply H.
Qed.

Lemma write_file_inv (d d' : Dir) (name content : string) :
  write_file d name content = Some d' ->
  exists l, dir_listing d = Some l
            /\ dir_name d' = dir_name d
            /\ dir_listing d' = Some (if mem_name name l then l else (l ++ [name])%list)
            /\ dir_read d' name = Some content
            /\ (forall f, f <> name -> dir_read d' f = dir_read d f).
Proof.
  unfold write_file. destruct (dir_listing d) as [l|]; [|discriminate].
  destruct (valid_name name); [|discriminate]. intro H. injection H as <-.
  exists l. cbn. rewrite String.eqb_refl. repeat split.
  intros f Hf. apply String.eqb_neq in Hf. now rewrite Hf.
Qed.

(** Writing a file that is not a slide file leaves discovery as it was. *)
Lemma write_file_discover (d d' : Dir) (name content : string) :
  write_file d name content = Some d' -> is_html_file name = false ->
  discover_slides d' = discover_slides d.
Proof.
  intros W N. destruct (write_file_inv d d' name content W)
    as [l [L [_ [L' [_ R]]]]].
  apply discover_slides_html_ext.
  - rewrite L, L'. destruct (mem_name name l); [reflexivity|].
    rewrite filter_app. cbn. rewrite N. now rewrite app_nil_r.
  - intros f _ Hf. apply R. intros ->. congruence.
Qed.

Lemma mkdir_existing (d : Dir) (l : list string) :
  dir_listing d = Some l -> mkdir d = d.
Proof. unfold mkdir. now intros ->. Qed.


Lemma mkdir_listed (d : Dir) : exists l, dir_listing (mkdir d) = Some l.
Proof.
  unfold mkdir. destruct (dir_listing d) as [l|] eqn:E.
  - now exists l.
  - now exists [].
Qed.

(** What a run without [--output] and without [--create-samples] leaves
    in the directory: nothing new when there is no slide; otherwise the
    page in [index.html], and the metadata file when it is asked for. *)
Lemma generate_navigation_result (tpl : Templates) (page_title : string)
    (metadata verbose : bool) (w w1 : World) :
  generate_navigation tpl page_title None false metadata verbose w = Returned w1 ->
  (fst (discover_slides (mkdir (w_dir w))) = [] /\ w_dir w1 = mkdir (w_dir w))
  \/ (fst (discover_slides (mkdir (w_dir w))) <> []
      /\ exists d1,
           write_file (mkdir (w_dir w)) "index.html"
             (create_navigation_html tpl (fst (discover_slides (mkdir (w_dir w))))
                page_title (mkdir (w_dir w))) = Some d1
           /\ (w_dir w1 = d1
               \/ write_file d1 "slides_metadata.json"
                    (metadata_text tpl (fst (discover_slides (mkdir (w_dir w)))))
                  = Some (w_dir w1))).
Proof.
  unfold generate_navigation.
  set (w0 := if verbose then append_events (set_dir w (mkdir (w_dir w))) _
             else set_dir w (mkdir (w_dir w))).
  assert (D0 : w_dir w0 = mkdir (w_dir w)) by (subst w0; now destruct verbose).
  clearbody w0.
  assert (S : match filter is_html_file (dir_files (w_dir w0)) with
              | [] => Returned w0
              | _ :: _ => Returned w0
              end = Returned w0)
    by (now destruct (filter is_html_file (dir_files (w_dir w0)))).
  rewrite S. clear S. rewrite D0.
  destruct (discover_slides (mkdir (w_dir w))) as [slides echoed]. cbn [fst].
  destruct slides as [|s0 rest].
  - intro H. injection H as <-. left. split; [reflexivity|]. exact D0.
  - set (slides := s0 :: rest).
    set (w2 := if verbose then append_events (append_events w0 echoed) _
               else append_events w0 echoed).
    assert (D2 : w_dir w2 = mkdir (w_dir w)) by (subst w2; now destruct verbose).
    clearbody w2. rewrite D2. unfold write_output, write_in_dir. rewrite D2.
    destruct (write_file (mkdir (w_dir w)) "index.html"
                (create_navigation_html tpl slides page_title (mkdir (w_dir w))))
      as [d1|] eqn:W; [|discriminate].
    intro H. right. split; [discriminate|]. exists d1. split; [reflexivity|].
    destruct metadata.
    + unfold save_slide_metadata, write_in_dir in H. cbn [w_dir append_events set_dir] in H.
      destruct (write_file d1 "slides_metadata.json" (metadata_text tpl slides))
        as [d2|] eqn:W2; [|discriminate].
      injection H as <-. right. reflexivity.
    + injection H as <-. left. reflexivity.
Qed.

(** X1.  Regenerating from an unchanged directory: the first run adds
    [index.html], which discovery skips by name, so the second run finds
    the same slides and writes the same page. *)
Lemma regeneration_is_stable (tpl : Templates) (page_title : string)
    (metadata verbose : bool) (w w1 w2 : World) :
  generate_navigation tpl page_title None false metadata verbose w = Returned w1 ->
  generate_navigation tpl page_title None false metadata verbose w1 = Returned w2 ->
  discover_slides (w_dir w1) = discover_slides (mkdir (w_dir w))
  /\ dir_read (w_dir w2) "index.html" = dir_read (w_dir w1) "index.html".
Proof.
  intros R1 R2.
  apply generate_navigation_result in R1. apply generate_navigation_result in R2.
  assert (K : discover_slides (w_dir w1) = discover_slides (mkdir (w_dir w))
              /\ dir_name (w_dir w1) = dir_name (mkdir (w_dir w))
              /\ mkdir (w_dir w1) = w_dir w1
              /\ (fst (discover_slides (mkdir (w_dir w))) <> [] ->
                  dir_read (w_dir w1) "index.html"
                  = Some (create_navigation_html tpl
                            (fst (discover_slides (mkdir (w_dir w))))
                            page_title (mkdir (w_dir w))))).
  { destruct R1 as [[E D] | [N [d1 [W [D | W2]]]]].
    - rewrite D. destruct (mkdir_listed (w_dir w)) as [l L].
      repeat split; [now apply (mkdir_existing _ l) | congruence].
    - rewrite D.
      destruct (write_file_inv _ _ _ _ W) as [l [_ [Nm [L' [Rd _]]]]].
      repeat split; try assumption.
      + now apply (write_file_discover _ _ _ _ W).
      + now apply (mkdir_existing _ _ L').
      + intros _. exact Rd.
    - destruct (write_file_inv _ _ _ _ W) as [l [_ [Nm [L' [Rd _]]]]].
      destruct (write_file_inv _ _ _ _ W2) as [l2 [_ [Nm2 [L2 [_ Ro]]]]].
      repeat split.
      + rewrite (write_file_discover _ _ _ _ W2) by reflexivity.
        now apply (write_file_discover _ _ _ _ W).
      + congruence.
      + now apply (mkdir_existing _ _ L2).
      + intros _. rewrite Ro by discriminate. exact Rd. }
  destruct K as [KD [KN [KM KR]]]. split; [exact KD|].
  rewrite KM, KD in R2.
  rewrite (create_navigation_html_name tpl _ page_title (w_dir w1) (mkdir (w_dir w)) KN)
    in R2.
  destruct R2 as [[E D] | [N [d1 [W [D | W2]]]]].
  - now rewrite D.
  - rewrite D, (KR N).
    destruct (write_file_inv _ _ _ _ W) as [l [_ [_ [_ [Rd _]]]]]. exact Rd.
  - rewrite (KR N).
    destruct (write_file_inv _ _ _ _ W) as [l [_ [_ [_ [Rd _]]]]].
    destruct (write_file_inv _ _ _ _ W2) as [l2 [_ [_ [_ [_ Ro]]]]].
    rewrite Ro by discriminate. exact Rd.
Qed.

(* ================================================================== *)
(** * The example of the specification *)
(* ================================================================== *)





(* ================================================================== *)
(** * [generate_navigation] on a directory without slides *)
(* ================================================================== *)

Lemma dir_files_mkdir (d : Dir) : dir_files (mkdir d) = dir_files d.
Proof.
  unfold mkdir. destruct (dir_listing d) eqn:E; [reflexivity|].
  unfold dir_files. cbn. now rewrite E.
Qed.

Lemma discover_file_echoes (d : Dir) (f : string) :
  existsb is_write (snd (discover_file d f)) = false.
Proof.
  unfold discover_file.
  destruct (re_match slide_pattern f) as [[|n [|g [|x r]]]|]; try reflexivity.
  destruct (dir_read d f); reflexivity.
Qed.

Lemma discover_loop_echoes (d : Dir) (files : list string) :
  existsb is_write (snd (discover_loop d files)) = false.
Proof.
  induction files as [|f rest IH]; [reflexivity|]. cbn [discover_loop].
  pose proof (discover_file_echoes d f) as H.
  destruct (discover_file d f) as [s1 e1], (discover_loop d rest) as [s2 e2].
  cbn [snd] in *. now rewrite existsb_app, H, IH.
Qed.

Lemma discover_slides_echoes (d : Dir) :
  existsb is_write (snd (discover_slides d)) = false.
Proof.
  unfold discover_slides. destruct (dir_listing d) as [l|]; [|reflexivity].
  destruct (filter is_html_file l); [reflexivity|]. apply discover_loop_echoes.
Qed.

Lemma discover_slides_none (d : Dir) :
  filter well_formed_name (dir_files d) = [] -> fst (discover_slides d) = [].
Proof.
  intro H. pose proof (discover_slides_filenames_perm d) as P.
  rewrite H in P. symmetry in P. apply Permutation_nil in P.
  now destruct (fst (discover_slides d)).
Qed.

(** C4, as the code has it.  On a directory without a well-formed slide
    name, [generate_navigation] returns without raising, writes no file
    and echoes the line that reports the empty result, provided the
    run does not seed samples: [--create-samples] is off, or the
    directory already holds some [.html] file other than [index.html]. *)
Theorem no_slides_no_output (tpl : Templates) (page_title : string)
    (output : option string) (create_samples metadata verbose : bool)
    (w : World) :
  filter well_formed_name (dir_files (w_dir w)) = [] ->
  create_samples = false \/ filter is_html_file (dir_files (w_dir w)) <> [] ->
  reports_no_slides w
    (generate_navigation tpl page_title output create_samples metadata verbose w).
Proof.
  intros Hnone Hseed. unfold generate_navigation, reports_no_slides.
  set (pre := if verbose
              then [Echo false MsgLookingIn; Echo false (MsgPageTitle page_title);
                    Echo false (MsgOutputFile output)]
              else []).
  set (w1 := if verbose
             then append_events (set_dir w (mkdir (w_dir w))) _
             else set_dir w (mkdir (w_dir w))).
  assert (E1 : w1 = mkWorld (mkdir (w_dir w)) (w_writable w) (w_trace w ++ pre)%list).
  { subst w1 pre. destruct verbose; unfold append_events, set_dir; cbn.
    - reflexivity.
    - now rewrite app_nil_r. }
  clearbody w1. subst w1. cbn [w_dir].
  rewrite dir_files_mkdir.
  assert (Hs : match filter is_html_file (dir_files (w_dir w)) with
               | [] => if create_samples
                       then create_sample_slides tpl
                              (append_events
                                 (mkWorld (mkdir (w_dir w)) (w_writable w)
                                    (w_trace w ++ pre)%list)
                                 [Echo false MsgCreatingSamples])
                       else Returned (mkWorld (mkdir (w_dir w)) (w_writable w)
                                        (w_trace w ++ pre)%list)
               | _ :: _ => Returned (mkWorld (mkdir (w_dir w)) (w_writable w)
                                       (w_trace w ++ pre)%list)
               end
               = Returned (mkWorld (mkdir (w_dir w)) (w_writable w)
                             (w_trace w ++ pre)%list)).
  { destruct (filter is_html_file (dir_files (w_dir w))); [|reflexivity].
    destruct Hseed as [-> | Hne]; [reflexivity | now elim Hne]. }
  rewrite Hs. cbn [w_dir].
  pose proof (discover_slides_none (mkdir (w_dir w))) as Hd.
  rewrite dir_files_mkdir in Hd. specialize (Hd Hnone).
  pose proof (discover_slides_echoes (mkdir (w_dir w))) as He.
  destruct (discover_slides (mkdir (w_dir w))) as [slides echoed].
  cbn [fst snd] in Hd, He. subst slides.
  exists (pre ++ echoed ++ [Echo true MsgNoValidSlides;
                            Echo false MsgExpectedPattern])%list.
  split; [|split].
  - unfold append_events. cbn. now rewrite <- !app_assoc.
  - rewrite !existsb_app, He. subst pre. now destruct verbose.
  - rewrite !in_app_iff. right. right. now left.
Qed.

(* ================================================================== *)
(** * [create_slide] with a malformed ordinal *)
(* ================================================================== *)


(* ================================================================== *)
(** * [create_slide]: the name written and its discovery *)
(* ================================================================== *)

(** ** The formatted ordinal *)

Lemma dec_fuel_digits :
  forall fuel n, PyStr.forall_chars PyStr.is_digit (PyStr.dec_fuel fuel n) = true.
Proof.
  induction fuel as [|f IH]; intro n; [reflexivity|]. cbn [PyStr.dec_fuel].
  assert (D : PyStr.is_digit (PyStr.digit_char (n mod 10)) = true)
    by (apply digit_char_is_digit, N.mod_lt; discriminate).
  destruct (n / 10 =? 0)%N.
  - cbn. now rewrite D.
  - rewrite forall_chars_append, IH. cbn. now rewrite D.
Qed.








Lemma forall_chars_impl (p q : ascii -> bool) (s : string) :
  (forall c, p c = true -> q c = true) ->
  PyStr.forall_chars p s = true -> PyStr.forall_chars q s = true.
Proof.
  intro H. induction s as [|c r IH]; [reflexivity|]. cbn.
  rewrite !andb_true_iff. intros [Hc Hr]. split; [now apply H | now apply IH].
Qed.



(** ** The slug of a title *)




Lemma replace_from_plain (p : ascii -> bool) (old new : string) :
  PyStr.forall_chars p new = true ->
  forall s k, PyStr.forall_chars p s = true ->
              PyStr.forall_chars p (PyStr.replace_from k old new s) = true.
Proof.
  intros Hnew. induction s as [|c r IH]; intros k H; [reflexivity|].
  cbn in H. apply andb_true_iff in H. destruct H as [Hc Hr].
  cbn [PyStr.replace_from]. destruct k as [|k]; [|now apply IH].
  destruct (String.prefix old (String c r)).
  - rewrite forall_chars_append, Hnew. now apply IH.
  - cbn. rewrite Hc. now apply IH.
Qed.






(** ** Writing the file *)



Lemma mem_name_in (f : string) (l : list string) :
  mem_name f l = true <-> In f l.
Proof.
  unfold mem_name. rewrite existsb_exists. split.
  - intros [x [Hx E]]. apply String.eqb_eq in E. now subst.
  - intro H. exists f. split; [assumption | apply String.eqb_refl].
Qed.




(* ================================================================== *)
(** * Concrete runs *)
(* ================================================================== *)


Example discover_deck_messages :
  snd (discover_slides notes_dir) = [Echo false (MsgSkipping "readme.html")].
Proof. vm_compute. reflexivity. Qed.

Lemma section_by_keyword_witness :
  (exists s, In s (fst (discover_slides deck_dir))
             /\ filename s = "011-compare.html")
  /\ (forall s, In s (fst (discover_slides deck_dir)) ->
        filename s = "011-compare.html" ->
        ((exists a b, "<h1>Appendix</h1>" = a ++ "Appendix" ++ b) ->
           section s = "Appendix")
        /\ (~ (exists a b, "<h1>Appendix</h1>" = a ++ "Appendix" ++ b) ->
              section s = "Main"))
  /\ (forall s, In s (fst (discover_slides deck_dir)) ->
        section s = "Main" \/ section s = "Appendix").
Proof.
  apply (section_by_keyword deck_dir "011-compare.html" "<h1>Appendix</h1>").
  - cbn. tauto.
  - reflexivity.
  - reflexivity.
Defined.



Lemma navigation_independent_of_listing_order_witness :
  discover_slides deck_dir = discover_slides deck_dir_reversed
  /\ create_navigation_html blank_templates
       (fst (discover_slides deck_dir)) "Deck" deck_dir
     = create_navigation_html blank_templates
         (fst (discover_slides deck_dir_reversed)) "Deck" deck_dir_reversed.
Proof.
  apply (navigation_independent_of_listing_order blank_templates "Deck"
           deck_dir deck_dir_reversed).
  - reflexivity.
  - exact (Permutation_rev deck_listing).
  - intros f _. reflexivity.
Defined.


Lemma no_slides_no_output_witness :
  reports_no_slides (fresh_world notes_dir)
    (generate_navigation blank_templates "Deck" None true true true
       (fresh_world notes_dir)).
Proof.
  apply (no_slides_no_output blank_templates "Deck" None true true true
           (fresh_world notes_dir)).
  - reflexivity.
  - right. discriminate.
Defined.

(** C4 as the specification states it fails when samples are seeded:
    on an empty directory with [--create-samples] the command writes the
    three sample slides and the page, and does not report an empty
    result. *)
Lemma samples_seed_an_empty_directory :
  filter well_formed_name (dir_files (empty_dir "deck")) = []
  /\ exists w',
       generate_navigation blank_templates "Deck" None true false false
         (fresh_world (empty_dir "deck")) = Returned w'
       /\ In "index.html" (dir_files (w_dir w'))
       /\ existsb is_write (w_trace w') = true
       /\ ~ In (Echo true MsgNoValidSlides) (w_trace w').
Proof.
  split; [reflexivity|]. eexists. split; [vm_compute; reflexivity|].
  split; [cbn; tauto|]. split; [reflexivity|].
  intro H. cbn in H.
  repeat (destruct H as [H | H]; [discriminate H|]). exact H.
Qed.




Example created_slide_name :
  slide_filename (PyStr.format_03d 7) "Pros & Cons" = "007-pros-and-cons.html".
Proof. reflexivity. Qed.


(** ** Corner cases of the text primitives and of the patterns *)

Example python_int_examples :
  PyStr.int " 12 " = Some 12 /\ PyStr.int "-1_000" = Some (-1000)
  /\ PyStr.int "007" = Some 7 /\ PyStr.int "1__0" = None
  /\ PyStr.int "_1" = None /\ PyStr.int "" = None /\ PyStr.int "1.5" = None.
Proof. repeat split. Qed.

Example python_format_examples :
  PyStr.format_03d 5 = "005" /\ PyStr.format_03d 999 = "999"
  /\ PyStr.format_03d 1000 = "1000" /\ PyStr.format_03d (-5) = "-05".
Proof. repeat split. Qed.

Example slug_title_examples :
  slug_title "prefect-vs-airflow" = "Prefect Vs Airflow"
  /\ slug_title "pros-and-cons" = "Pros & Cons"
  /\ slug_title "standard-3d" = "St&Ard 3D".
Proof. repeat split. Qed.

(** The pattern alone accepts a name that ends in a line feed after the
    extension; the [.html] filter has dropped such a name before. *)
Example name_with_final_line_feed :
  re_match slide_pattern ("001-a.html" ++ nl) = Some ["001"; "a"]
  /\ is_html_file ("001-a.html" ++ nl) = false
  /\ well_formed_name ("001-a.html" ++ nl) = false.
Proof. repeat split. Qed.

Example rejected_names :
  map well_formed_name
    ["index.html"; "01-a.html"; "0001-a.html"; "001-.html"; "001_a.html";
     "001-a.htm"; "001-a.html.bak"; "a01-b.html"]
  = [false; false; false; false; false; false; false; false].
Proof. reflexivity. Qed.

(** The title is what follows the first hyphen of the [<title>] text; a
    [<title>] without hyphen is not a marker. *)
Example title_marker_examples :
  re_search title_pattern "<head><title>001 - Intro - Part 2</title></head>"
  = Some ["Intro - Part 2"]
  /\ re_search title_pattern "<title>Hello</title>" = None
  /\ re_search title_pattern ("<title>001 -" ++ nl ++ "Intro</title>")
     = Some ["Intro"]
  /\ re_search title_pattern ("<title>001 - In" ++ nl ++ "tro</title>") = None.
Proof. repeat split. Qed.

Example sidebar_of_returning_label :
  sidebar_items [mkSlide "001" "A" "001-a.html" "Main";
                 mkSlide "002" "B" "002-b.html" "Appendix";
                 mkSlide "003" "C" "003-c.html" "Main"]
  = [OpenSection "Main";
     SlideItem 0 (mkSlide "001" "A" "001-a.html" "Main");
     CloseSection; OpenSection "Appendix";
     SlideItem 1 (mkSlide "002" "B" "002-b.html" "Appendix");
     CloseSection; OpenSection "Main";
     SlideItem 2 (mkSlide "003" "C" "003-c.html" "Main");
     CloseSection].
Proof. reflexivity. Qed.

Example regeneration_of_the_deck :
  exists w1 w2,
    generate_navigation blank_templates "Deck" None false false false
      (fresh_world deck_dir) = Returned w1
    /\ generate_navigation blank_templates "Deck" None false false false w1
       = Returned w2
    /\ dir_read (w_dir w2) "index.html" = dir_read (w_dir w1) "index.html"
    /\ dir_read (w_dir w1) "index.html"
       = Some (create_navigation_html blank_templates
                 (fst (discover_slides deck_dir)) "Deck" deck_dir).
Proof.
  eexists. eexists. split; [vm_compute; reflexivity|].
  split; [vm_compute; reflexivity|]. split; vm_compute; reflexivity.
Qed.

(* ================================================================== *)
(** * Order of preference of the matcher *)
(* ================================================================== *)

Section Preference.

Context {R : Type}.

Lemma run_lit_append (w : string) :
  forall pos s caps (k : @cont R),
    run (lit w) pos (w ++ s) caps k = k (pos + String.length w)%nat s caps.
Proof.
  induction w as [|c w IH]; intros pos s caps k; cbn.
  - now rewrite Nat.add_0_r.
  - rewrite Ascii.eqb_refl, IH. now rewrite Nat.add_succ_r.
Qed.

Lemma run_lit_mismatch (w : string) :
  forall pos s caps (k : @cont R),
    String.prefix w s = false -> run (lit w) pos s caps k = None.
Proof.
  induction w as [|c w IH]; intros pos s caps k H.
  - destruct s; discriminate H.
  - destruct s as [|a s]; [reflexivity|]. cbn in H |- *.
    destruct (ascii_dec c a) as [->|Hne].
    + rewrite Ascii.eqb_refl. now apply IH.
    + destruct (Ascii.eqb_spec a c) as [->|]; [now elim Hne | reflexivity].
Qed.

(** The lazy star stops at the first place where what follows succeeds. *)
Lemma star_lazy_first (p : ascii -> bool) :
  forall s1 s2 pos caps (k : @cont R) x,
    PyStr.forall_chars p s1 = true ->
    (forall a b, s1 = a ++ b -> b <> "" ->
                 k (pos + String.length a)%nat (b ++ s2) caps = None) ->
    k (pos + String.length s1)%nat s2 caps = Some x ->
    star_lazy p pos (s1 ++ s2) caps k = Some x.
Proof.
  induction s1 as [|c s1 IH]; intros s2 pos caps k x Hall Hfail Hk.
  - cbn in Hk |- *. rewrite Nat.add_0_r in Hk.
    destruct s2; cbn; now rewrite Hk.
  - cbn in Hall. apply andb_true_iff in Hall. destruct Hall as [Hc Hall].
    cbn [String.append star_lazy].
    pose proof (Hfail "" (String c s1) eq_refl ltac:(discriminate)) as H0.
    cbn in H0. rewrite Nat.add_0_r in H0. rewrite H0, Hc.
    apply IH; [assumption | |].
    + intros a b E Hb. specialize (Hfail (String c a) b).
      cbn in Hfail. rewrite Nat.add_succ_r in Hfail.
      apply Hfail; [now rewrite E | assumption].
    + cbn in Hk. now rewrite Nat.add_succ_r in Hk.
Qed.

(** The greedy star takes the whole run when what follows succeeds
    after it. *)
Lemma star_greedy_whole (p : ascii -> bool) :
  forall s1 s2 pos caps (k : @cont R) x,
    PyStr.forall_chars p s1 = true ->
    match s2 with String c _ => p c = false | EmptyString => True end ->
    k (pos + String.length s1)%nat s2 caps = Some x ->
    star_greedy p pos (s1 ++ s2) caps k = Some x.
Proof.
  induction s1 as [|c s1 IH]; intros s2 pos caps k x Hall Hs2 Hk.
  - cbn in Hk |- *. rewrite Nat.add_0_r in Hk.
    destruct s2 as [|a r]; cbn; [assumption|]. now rewrite Hs2.
  - cbn in Hall. apply andb_true_iff in Hall. destruct Hall as [Hc Hall].
    cbn [String.append star_greedy]. rewrite Hc.
    rewrite (IH s2 (S pos) caps k x); try assumption; [reflexivity|].
    cbn in Hk. now rewrite Nat.add_succ_r in Hk.
Qed.

End Preference.

(** A word whose first character does not come back in it cannot start
    inside a text and run over its end into a place where the word
    starts again. *)
Lemma prefix_within (c : ascii) (w' : string) :
  lacks c w' = true ->
  forall b s, String.prefix w' (b ++ String c s) = true ->
              String.prefix w' b = true.
Proof.
  induction w' as [|y w' IH]; intros L b s H.
  - now destruct b.
  - cbn in L. apply andb_true_iff in L. destruct L as [Ly L].
    destruct b as [|z b]; cbn in H |- *.
    + destruct (ascii_dec y c) as [->|]; [|discriminate].
      now rewrite Ascii.eqb_refl in Ly.
    + destruct (ascii_dec y z); [|discriminate]. now apply (IH L b s).
Qed.

Lemma word_not_at_suffix (c : ascii) (w' : string) :
  lacks c w' = true ->
  forall pre a b s,
    PyStr.contains (String c w') pre = false ->
    pre = a ++ b -> b <> "" ->
    String.prefix (String c w') (b ++ String c s) = false.
Proof.
  intros L pre a b s Hc E Hb.
  destruct (String.prefix (String c w') (b ++ String c s)) eqn:P; [|reflexivity].
  exfalso. destruct b as [|z b]; [now elim Hb|]. cbn in P.
  destruct (ascii_dec c z) as [<-|]; [|discriminate].
  apply (prefix_within c w' L) in P.
  assert (Q : PyStr.contains (String c w') pre = true).
  { apply contains_iff. apply prefix_iff in P. destruct P as [r Hr].
    exists a, r. rewrite E, Hr. reflexivity. }
  congruence.
Qed.

(** A search for a pattern that starts with a word moves past a text
    that does not contain the word. *)
Lemma search_skips (c : ascii) (w' : string) (r : regex) :
  lacks c w' = true ->
  forall pre pos s,
    PyStr.contains (String c w') pre = false ->
    search_from (Seq (lit (String c w')) r) pos (pre ++ String c s)
    = search_from (Seq (lit (String c w')) r) (pos + String.length pre)
        (String c s).
Proof.
  intros L. induction pre as [|x pre IH]; intros pos s Hc.
  - cbn [String.append String.length]. now rewrite Nat.add_0_r.
  - assert (Hc' : PyStr.contains (String c w') pre = false).
    { cbn [PyStr.contains] in Hc. now apply orb_false_iff in Hc. }
    assert (F : String.prefix (String c w') (String x pre ++ String c s) = false).
    { apply (word_not_at_suffix c w' L (String x pre) "" (String x pre) s);
        [assumption | reflexivity | discriminate]. }
    change (String x pre ++ String c s) with (String x (pre ++ String c s)) in *.
    cbn [search_from].
    change (run (Seq (lit (String c w')) r) pos (String x (pre ++ String c s)) []
              (fun _ _ caps => Some caps))
      with (run (lit (String c w')) pos (String x (pre ++ String c s)) []
              (fun pos' s' caps' => run r pos' s' caps' (fun _ _ caps => Some caps))).
    rewrite (run_lit_mismatch _ _ _ _ _ F).
    rewrite IH by assumption. cbn [String.length]. now rewrite Nat.add_succ_r.
Qed.

(* ================================================================== *)
(** * Reading back the title of a generated slide *)
(* ================================================================== *)

Lemma contains_tail (w : string) (c : ascii) (s : string) :
  PyStr.contains w (String c s) = false -> PyStr.contains w s = false.
Proof. cbn [PyStr.contains]. intro H. now apply orb_false_iff in H. Qed.

Section Steps.

Context {R : Type}.

Lemma run_seq r1 r2 pos s caps (k : @cont R) :
  run (Seq r1 r2) pos s caps k
  = run r1 pos s caps (fun pos' s' caps' => run r2 pos' s' caps' k).
Proof. reflexivity. Qed.

Lemma run_chr c pos s caps (k : @cont R) :
  run (Chr c) pos (String c s) caps k = k (S pos) s caps.
Proof. cbn. now rewrite Ascii.eqb_refl. Qed.



Lemma run_group r pos s caps (k : @cont R) :
  run (Group r) pos s caps k
  = run r pos s caps
      (fun pos' s' caps' =>
         k pos' s' (caps' ++ [String.substring 0 (pos' - pos) s])%list).
Proof. reflexivity. Qed.


End Steps.














(* ================================================================== *)
(** * The slide items and the nesting of the sidebar *)
(* ================================================================== *)




Lemma sidebar_loop_nested :
  forall slides i cur tail,
    well_nested (has_section cur) (fst (sidebar_loop i cur slides) ++ tail)
    = well_nested (has_section (snd (sidebar_loop i cur slides))) tail.
Proof.
  induction slides as [|s rest IH]; intros i cur tail; [reflexivity|].
  rewrite sidebar_loop_unfold. cbn [fst snd].
  destruct (same_as cur (section s)) eqn:E.
  - destruct cur; [|discriminate]. cbn. apply (IH (S i) (Some (section s))).
  - destruct cur; cbn; apply (IH (S i) (Some (section s))).
Qed.

(** X4.  The section elements of the sidebar are balanced: every
    section that is opened is closed before the next one opens and
    before the end, and every slide item lies inside a section. *)
Theorem sidebar_is_well_nested (slides : list Slide) :
  well_nested false (sidebar_items slides) = true.
Proof.
  rewrite sidebar_items_loop. destruct slides as [|s rest]; [reflexivity|].
  change false with (has_section None).
  rewrite sidebar_loop_nested.
  pose proof (sidebar_loop_final (s :: rest) 0%nat None) as F.
  destruct (snd (sidebar_loop 0 None (s :: rest))); [reflexivity | discriminate].
Qed.

(* ================================================================== *)
(** * The sections of the metadata and of the summary *)
(* ================================================================== *)

Lemma group_of_add_same (s : Slide) :
  forall acc,
    group_of (section s) (add_to_section s acc)
    = (group_of (section s) acc ++ [s])%list.
Proof.
  induction acc as [|[k g] r IH]; cbn.
  - now rewrite String.eqb_refl.
  - destruct (k =? section s)%string eqn:E; cbn; now rewrite E.
Qed.

Lemma group_of_add_other (s : Slide) (k : string) :
  section s <> k ->
  forall acc, group_of k (add_to_section s acc) = group_of k acc.
Proof.
  intros N. induction acc as [|[k' g] r IH]; cbn.
  - apply String.eqb_neq in N. now rewrite N.
  - destruct (k' =? section s)%string eqn:E; cbn.
    + apply String.eqb_eq in E. subst k'.
      apply String.eqb_neq in N. now rewrite N.
    + now rewrite IH.
Qed.

Lemma add_to_section_keys (s : Slide) (k : string) :
  forall acc,
    In k (map fst (add_to_section s acc))
    <-> k = section s \/ In k (map fst acc).
Proof.
  induction acc as [|[k' g] r IH]; cbn.
  - intuition.
  - destruct (k' =? section s)%string eqn:E; cbn.
    + apply String.eqb_eq in E. subst k'. intuition.
    + rewrite IH. intuition.
Qed.

Lemma add_to_section_nodup (s : Slide) :
  forall acc, NoDup (map fst acc) -> NoDup (map fst (add_to_section s acc)).
Proof.
  induction acc as [|[k g] r IH]; cbn; intros N.
  - constructor; [intros []|constructor].
  - inversion N as [|? ? Nk Nr]; subst.
    destruct (k =? section s)%string eqn:E; cbn.
    + now constructor.
    + constructor; [|now apply IH].
      rewrite add_to_section_keys. intros [->|H]; [|contradiction].
      now rewrite String.eqb_refl in E.
Qed.

Lemma add_to_section_nonempty (s : Slide) :
  forall acc,
    Forall (fun p => snd p <> []) acc ->
    Forall (fun p => snd p <> []) (add_to_section s acc).
Proof.
  induction acc as [|[k g] r IH]; cbn; intros F.
  - constructor; [discriminate|constructor].
  - inversion F as [|? ? Fg Fr]; subst.
    destruct (k =? section s)%string; constructor; auto.
    cbn. now destruct g.
Qed.

Lemma metadata_fold :
  forall slides acc,
    NoDup (map fst acc) -> Forall (fun p => snd p <> []) acc ->
    let final :=
      fold_left (fun sections slide => add_to_section slide sections)
                slides acc in
    NoDup (map fst final)
    /\ Forall (fun p => snd p <> []) final
    /\ forall k, group_of k final = (group_of k acc ++ in_section k slides)%list.
Proof.
  induction slides as [|s rest IH]; intros acc N F; cbn.
  - repeat split; auto. intros k. now rewrite app_nil_r.
  - destruct (IH (add_to_section s acc)
                (add_to_section_nodup s acc N)
                (add_to_section_nonempty s acc F)) as (N' & F' & G').
    repeat split; auto. intros k. rewrite G'.
    unfold in_section. cbn [filter].
    destruct (section s =? k)%string eqn:E.
    + apply String.eqb_eq in E. subst k.
      now rewrite group_of_add_same, <- app_assoc.
    + apply String.eqb_neq in E. now rewrite group_of_add_other.
Qed.

Lemma group_of_in (k : string) (g : list Slide) :
  forall acc, NoDup (map fst acc) -> In (k, g) acc -> group_of k acc = g.
Proof.
  induction acc as [|[k' g'] r IH]; cbn; intros N H; [contradiction|].
  inversion N as [|? ? Nk Nr]; subst. destruct H as [H|H].
  - injection H as -> ->. now rewrite String.eqb_refl.
  - destruct (k' =? k)%string eqn:E; [|now apply IH].
    apply String.eqb_eq in E. subst k'. exfalso. apply Nk.
    change k with (fst (k, g)). now apply in_map.
Qed.

Lemma in_group_of (k : string) :
  forall acc, group_of k acc <> [] -> In (k, group_of k acc) acc.
Proof.
  induction acc as [|[k' g'] r IH]; cbn; intros H; [congruence|].
  destruct (k' =? k)%string eqn:E.
  - apply String.eqb_eq in E. subst k'. now left.
  - right. now apply IH.
Qed.

Lemma metadata_sections_facts (slides : list Slide) :
  NoDup (map fst (metadata_sections slides))
  /\ Forall (fun p => snd p <> []) (metadata_sections slides)
  /\ forall k, group_of k (metadata_sections slides) = in_section k slides.
Proof.
  apply (metadata_fold slides []); constructor.
Qed.

Lemma metadata_sections_in (slides : list Slide) (sec : string)
    (g : list Slide) :
  In (sec, g) (metadata_sections slides)
  <-> g = in_section sec slides /\ g <> [].
Proof.
  destruct (metadata_sections_facts slides) as (N & F & G). split.
  - intros H. split.
    + rewrite <- G. symmetry. now apply group_of_in.
    + rewrite Forall_forall in F. exact (F _ H).
  - intros [-> H]. rewrite <- G in *. now apply in_group_of.
Qed.

Lemma bump_group_size (s : Slide) :
  forall acc,
    map group_size (add_to_section s acc)
    = bump (section s) (map group_size acc).
Proof.
  induction acc as [|[k g] r IH]; cbn; [reflexivity|].
  destruct (k =? section s)%string; cbn.
  - unfold group_size at 1. cbn. rewrite length_app. cbn.
    now rewrite Nat.add_1_r.
  - now rewrite IH.
Qed.

Lemma breakdown_fold :
  forall slides acc,
    map group_size
        (fold_left (fun sections slide => add_to_section slide sections)
                   slides acc)
    = fold_left (fun sections slide => bump (section slide) sections)
                slides (map group_size acc).
Proof.
  induction slides as [|s rest IH]; intros acc; cbn; [reflexivity|].
  now rewrite IH, bump_group_size.
Qed.

Lemma breakdown_group_sizes (slides : list Slide) :
  section_breakdown slides = map group_size (metadata_sections slides).
Proof.
  unfold section_breakdown, metadata_sections. now rewrite breakdown_fold.
Qed.

Lemma bump_sum (sec : string) :
  forall acc,
    list_sum (map snd (bump sec acc)) = S (list_sum (map snd acc)).
Proof.
  unfold list_sum. induction acc as [|[k n] r IH]; [reflexivity|].
  cbn [bump]. destruct (k =? sec)%string; cbn [map snd fold_right].
  - reflexivity.
  - rewrite IH. now rewrite Nat.add_succ_r.
Qed.

Lemma breakdown_sum :
  forall slides acc,
    list_sum (map snd
      (fold_left (fun sections slide => bump (section slide) sections)
                 slides acc))
    = (list_sum (map snd acc) + List.length slides)%nat.
Proof.
  induction slides as [|s rest IH]; intros acc; cbn.
  - now rewrite Nat.add_0_r.
  - rewrite IH, bump_sum. now rewrite Nat.add_succ_r.
Qed.

(** X5.  The summary printed at the end of [generate_navigation] has
    one line for each section that occurs, each with the number of
    slides of that section, and the numbers add up to the number of
    slides. *)
Theorem section_breakdown_counts (slides : list Slide) :
  NoDup (map fst (section_breakdown slides))
  /\ (forall sec n,
        In (sec, n) (section_breakdown slides)
        <-> n = List.length (in_section sec slides) /\ (0 < n)%nat)
  /\ list_sum (map snd (section_breakdown slides)) = List.length slides.
Proof.
  split; [|split].
  - rewrite breakdown_group_sizes, map_map. cbn.
    apply (metadata_sections_facts slides).
  - intros sec n. rewrite breakdown_group_sizes, in_map_iff. split.
    + intros ([k g] & E & H). injection E as -> <-.
      apply metadata_sections_in in H. destruct H as [-> H].
      split; [reflexivity|]. destruct (in_section sec slides); [congruence|].
      cbn. apply Nat.lt_0_succ.
    + intros [-> H]. exists (sec, in_section sec slides). split; [reflexivity|].
      apply metadata_sections_in. split; [reflexivity|].
      intros E. rewrite E in H. now apply Nat.lt_irrefl in H.
  - unfold section_breakdown. now rewrite breakdown_sum.
Qed.

(** X6.  The dictionary of sections written to the metadata has every
    section that occurs exactly once as a key, in the order of first
    appearance; the list of a section holds exactly the slides of that
    section, in the order of the deck, and is never empty; and its
    sizes are the counts of the printed summary. *)
Theorem metadata_groups_by_section (slides : list Slide) :
  NoDup (map fst (metadata_sections slides))
  /\ (forall sec g,
        In (sec, g) (metadata_sections slides)
        <-> g = in_section sec slides /\ g <> [])
  /\ (forall s, In s slides ->
        In (section s, in_section (section s) slides)
           (metadata_sections slides))
  /\ map group_size (metadata_sections slides) = section_breakdown slides.
Proof.
  split; [apply (metadata_sections_facts slides)|].
  split; [intros sec g; apply metadata_sections_in|].
  split; [|symmetry; apply breakdown_group_sizes].
  intros s H. apply metadata_sections_in. split; [reflexivity|].
  intros E. assert (I : In s (in_section (section s) slides)).
  { apply filter_In. split; [exact H|apply String.eqb_refl]. }
  now rewrite E in I.
Qed.

(* ================================================================== *)
(** * The lines echoed by discovery *)
(* ================================================================== *)

Lemma discover_file_events (d : Dir) (f : string) :
  is_html_file f = true ->
  discover_file d f
  = if well_formed_name f
    then (fst (discover_file d f),
          match dir_read d f with
          | Some _ => []
          | None => [Echo true (MsgCouldNotRead f)]
          end)
    else ([], [Echo false (MsgSkipping f)]).
Proof.
  intros Hh. destruct (well_formed_name f) eqn:W.
  - destruct (well_formed_match f W) as [n [g [Hm _]]].
    unfold discover_file. rewrite Hm. now destruct (dir_read d f).
  - now apply discover_file_rejected.
Qed.

Lemma discover_loop_events (d : Dir) (files : list string) (e : event) :
  In e (snd (discover_loop d files))
  <-> exists f, In f files /\ In e (snd (discover_file d f)).
Proof.
  induction files as [|f rest IH]; cbn [discover_loop].
  - cbn. split; [intros [] | intros [f [[] _]]].
  - destruct (discover_file d f) as [s1 e1] eqn:E1.
    destruct (discover_loop d rest) as [s2 e2] eqn:E2. cbn [snd] in *.
    rewrite in_app_iff, IH. split.
    + intros [H | [f' [Hf He]]].
      * exists f. rewrite E1. split; [now left | exact H].
      * exists f'. split; [now right | exact He].
    + intros [f' [[<- | Hf] He]].
      * left. now rewrite E1 in He.
      * right. now exists f'.
Qed.

Lemma discover_slides_events (d : Dir) (e : event) :
  e <> Echo true MsgDirMissing -> e <> Echo true MsgNoHtmlFiles ->
  (In e (snd (discover_slides d))
   <-> exists f, In f (dir_files d) /\ is_html_file f = true
                 /\ In e (snd (discover_file d f))).
Proof.
  intros N1 N2. unfold discover_slides, dir_files.
  destruct (dir_listing d) as [l|].
  - destruct (filter is_html_file l) as [|f0 fs] eqn:E.
    + split.
      * intros [H | []]. now symmetry in H.
      * intros [f [Hf [Hh _]]].
        assert (I : In f (filter is_html_file l)) by now apply filter_In.
        rewrite E in I. destruct I.
    + rewrite discover_loop_events, <- E. split; intros [f [Hf He]]; exists f.
      * apply (Permutation_in f (Permutation_sym (sort_names_perm _))) in Hf.
        apply filter_In in Hf. now split.
      * destruct He as [Hh He]. split; [|exact He].
        apply (Permutation_in f (sort_names_perm _)). now apply filter_In.
  - split.
    + intros [H | []]. now symmetry in H.
    + intros [f [[] _]].
Qed.

Lemma discover_loop_accounts (d : Dir) (files : list string) :
  Forall (fun f => is_html_file f = true) files ->
  (List.length (fst (discover_loop d files))
   + List.length (filter is_skip (snd (discover_loop d files))))%nat
  = List.length files.
Proof.
  induction 1 as [|f rest Hf Hrest IH]; [reflexivity|]. cbn [discover_loop].
  pose proof (discover_file_events d f Hf) as E.
  assert (Hs : well_formed_name f = true ->
               List.length (fst (discover_file d f)) = 1%nat).
  { intros W.
    destruct (discover_file_well_formed d f W) as [n [g [_ [_ [_ [_ Hs]]]]]].
    now rewrite Hs. }
  destruct (discover_file d f) as [s1 e1].
  destruct (discover_loop d rest) as [s2 e2]. cbn [fst snd] in *.
  rewrite filter_app, !length_app.
  destruct (well_formed_name f) eqn:W.
  - rewrite (Hs eq_refl). injection E as ->.
    destruct (dir_read d f); cbn; now rewrite IH.
  - injection E as -> ->. cbn. rewrite <- IH.
    now rewrite Nat.add_succ_r.
Qed.

(** X7.  What discovery reports about the files of the directory: a
    name is reported as skipped exactly when it ends in [.html], is not
    [index.html] and does not have the form of a slide name; a name is
    reported as unreadable exactly when it has the form of a slide name
    and cannot be read; and every [.html] file other than [index.html]
    either gives a slide or is reported as skipped, never both. *)
Theorem discovery_accounts_for_every_file (d : Dir) :
  (forall f,
     In (Echo false (MsgSkipping f)) (snd (discover_slides d))
     <-> In f (dir_files d) /\ is_html_file f = true
         /\ well_formed_name f = false)
  /\ (forall f,
        In (Echo true (MsgCouldNotRead f)) (snd (discover_slides d))
        <-> In f (dir_files d) /\ well_formed_name f = true
            /\ dir_read d f = None)
  /\ (List.length (fst (discover_slides d))
      + List.length (filter is_skip (snd (discover_slides d))))%nat
     = List.length (filter is_html_file (dir_files d)).
Proof.
  split; [|split].
  - intros f. rewrite discover_slides_events by discriminate. split.
    + intros [f' [Hf [Hh He]]]. rewrite (discover_file_events d f' Hh) in He.
      destruct (well_formed_name f') eqn:W; cbn [snd] in He.
      * destruct (dir_read d f'); [destruct He|].
        destruct He as [He | []]. discriminate He.
      * destruct He as [He | []]. injection He as ->. now repeat split.
    + intros [Hf [Hh W]]. exists f. repeat split; try assumption.
      rewrite (discover_file_events d f Hh), W. now left.
  - intros f. rewrite discover_slides_events by discriminate. split.
    + intros [f' [Hf [Hh He]]]. rewrite (discover_file_events d f' Hh) in He.
      destruct (well_formed_name f') eqn:W; cbn [snd] in He.
      * destruct (dir_read d f') eqn:R; [destruct He|].
        destruct He as [He | []]. injection He as ->. now repeat split.
      * destruct He as [He | []]. discriminate He.
    + intros [Hf [W R]]. exists f. pose proof (well_formed_is_html f W) as Hh.
      repeat split; try assumption.
      rewrite (discover_file_events d f Hh), W, R. now left.
  - unfold discover_slides, dir_files.
    destruct (dir_listing d) as [l|]; [|reflexivity].
    destruct (filter is_html_file l) as [|f0 fs] eqn:E; [reflexivity|].
    rewrite discover_loop_accounts.
    + symmetry. apply Permutation_length, sort_names_perm.
    + apply (Permutation_Forall (sort_names_perm (f0 :: fs))).
      rewrite <- E. apply filter_html_forall.
Qed.

(* ================================================================== *)
(** * The files [generate_navigation] leaves alone *)
(* ================================================================== *)

Lemma kept_refl (f : string) (w : World) : kept f w w.
Proof. now split. Qed.

Lemma kept_trans (f : string) (w1 w2 w3 : World) :
  kept f w1 w2 -> kept f w2 w3 -> kept f w1 w3.
Proof. intros [A1 B1] [A2 B2]. split; [auto | congruence]. Qed.

Lemma kept_same_dir (f : string) (w w' : World) :
  w_dir w' = w_dir w -> kept f w w'.
Proof. intros E. unfold kept. rewrite E. now split. Qed.

Lemma kept_mkdir (f : string) (w : World) :
  kept f w (set_dir w (mkdir (w_dir w))).
Proof.
  unfold kept. cbn [w_dir set_dir]. rewrite dir_files_mkdir. split; [auto|].
  unfold mkdir. now destruct (dir_listing (w_dir w)).
Qed.

Lemma kept_write_in_dir (f name content : string) (w : World) :
  f <> name -> kept f w (final_world (write_in_dir w name content)).
Proof.
  intros N. unfold write_in_dir.
  destruct (write_file (w_dir w) name content) as [d'|] eqn:W;
    [|apply kept_refl].
  destruct (write_file_inv _ _ _ _ W) as [l [L [_ [L' [_ R]]]]].
  unfold kept, dir_files. cbn [final_world w_dir append_events set_dir].
  rewrite L, L'. split; [|now apply R].
  intros H. destruct (mem_name name l); [exact H|].
  apply in_or_app. now left.
Qed.

Lemma kept_samples_loop (tpl : Templates) (f : string) :
  forall samples w,
    ~ In f (sample_names samples) ->
    kept f w (final_world (create_samples_loop tpl samples w)).
Proof.
  induction samples as [|[[[num t] k] sec] rest IH]; intros w N;
    [apply kept_refl|].
  cbn [create_samples_loop].
  assert (Nf : f <> slide_filename num t) by (intros ->; apply N; now left).
  pose proof (kept_write_in_dir f (slide_filename num t)
                (create_slide_template tpl (num ++ " - " ++ t)
                   (sample_content tpl k) sec) w Nf) as K.
  destruct (write_in_dir w (slide_filename num t) _) as [w'|e w'];
    cbn [final_world] in K; [|exact K].
  apply (kept_trans f w w'); [exact K|].
  apply (kept_trans f w'
           (append_events w' [Echo false (MsgCreatedSample (slide_filename num t))])).
  - now apply kept_same_dir.
  - apply IH. intros H. apply N. now right.
Qed.

Lemma kept_write_output (f content : string) (output : option string)
    (w : World) :
  f <> "index.html" ->
  kept f w (final_world (write_output output content w)).
Proof.
  intros N. unfold write_output. destruct output as [path|].
  - destruct (w_writable w path); now apply kept_same_dir.
  - now apply kept_write_in_dir.
Qed.

Lemma kept_save_metadata (tpl : Templates) (f : string) (slides : list Slide)
    (w : World) :
  f <> "slides_metadata.json" ->
  kept f w (final_world (save_slide_metadata tpl slides w)).
Proof.
  intros N. unfold save_slide_metadata.
  pose proof (kept_write_in_dir f "slides_metadata.json"
                (metadata_text tpl slides) w N) as K.
  destruct (write_in_dir w "slides_metadata.json" _) as [w'|e w'];
    cbn [final_world] in *; [|exact K].
  apply (kept_trans f w w'); [exact K | now apply kept_same_dir].
Qed.

Lemma samples_are_html (f : string) :
  In f (sample_names sample_slides) -> is_html_file f = true.
Proof.
  unfold sample_names, sample_slides. cbn [map In].
  intros [<- | [<- | [<- | []]]]; vm_compute; reflexivity.
Qed.

(** X8.  Without [--output], [generate_navigation] never removes or
    rewrites a file that was in the slide directory, except
    [index.html] and [slides_metadata.json]: whatever the other
    options, and whether the run returns or raises, every other file is
    still listed and reads as before. *)
Theorem generate_navigation_keeps_files (tpl : Templates)
    (page_title : string) (create_samples metadata verbose : bool)
    (w : World) (f : string) :
  In f (dir_files (w_dir w)) ->
  f <> "index.html" -> f <> "slides_metadata.json" ->
  In f (dir_files
          (w_dir (final_world
                    (generate_navigation tpl page_title None create_samples
                       metadata verbose w))))
  /\ dir_read
       (w_dir (final_world
                 (generate_navigation tpl page_title None create_samples
                    metadata verbose w))) f
     = dir_read (w_dir w) f.
Proof.
  intros Hin N1 N2.
  cut (kept f w (final_world
                   (generate_navigation tpl page_title None create_samples
                      metadata verbose w))).
  { intros [A B]. split; [now apply A | exact B]. }
  unfold generate_navigation.
  set (w0 := if verbose then append_events (set_dir w (mkdir (w_dir w))) _
             else set_dir w (mkdir (w_dir w))).
  assert (K0 : kept f w w0).
  { apply (kept_trans f w (set_dir w (mkdir (w_dir w)))); [apply kept_mkdir|].
    subst w0. destruct verbose; now apply kept_same_dir. }
  assert (F0 : dir_files (w_dir w0) = dir_files (w_dir w)).
  { subst w0. destruct verbose; cbn [w_dir append_events set_dir];
      apply dir_files_mkdir. }
  clearbody w0.
  set (seeded := match filter is_html_file (dir_files (w_dir w0)) with
                 | [] => _
                 | _ :: _ => _
                 end).
  assert (K1 : kept f w0 (final_world seeded)).
  { subst seeded.
    destruct (filter is_html_file (dir_files (w_dir w0))) eqn:E;
      [|apply kept_refl].
    destruct create_samples; [|apply kept_refl].
    apply (kept_trans f w0 (append_events w0 [Echo false MsgCreatingSamples]));
      [now apply kept_same_dir|].
    unfold create_sample_slides.
    apply (kept_samples_loop tpl f sample_slides). intros H. apply samples_are_html in H.
    assert (I : In f (filter is_html_file (dir_files (w_dir w0)))).
    { apply filter_In. split; [now rewrite F0 | exact H]. }
    rewrite E in I. destruct I. }
  clearbody seeded. apply (kept_trans f w w0 _ K0).
  destruct seeded as [w1|e w1]; cbn [final_world] in *; [|exact K1].
  apply (kept_trans f w0 w1 _ K1).
  destruct (discover_slides (w_dir w1)) as [slides echoed].
  destruct slides as [|s0 rest]; [now apply kept_same_dir|].
  set (slides := s0 :: rest).
  set (w2 := if verbose then append_events (append_events w1 echoed) _
             else append_events w1 echoed).
  assert (K2 : kept f w1 w2).
  { subst w2. destruct verbose; now apply kept_same_dir. }
  clearbody w2. apply (kept_trans f w1 w2 _ K2).
  pose proof (kept_write_output f
                (create_navigation_html tpl slides page_title (w_dir w2))
                None w2 N1) as K3.
  destruct (write_output None _ w2) as [w3|e w3];
    cbn [final_world] in *; [|exact K3].
  apply (kept_trans f w2 w3 _ K3).
  apply (kept_trans f w3
           (append_events w3 [Echo false (MsgGenerated None)]));
    [now apply kept_same_dir|].
  destruct metadata.
  - pose proof (kept_save_metadata tpl f slides
                  (append_events w3 [Echo false (MsgGenerated None)]) N2)
      as K4.
    destruct (save_slide_metadata tpl slides _) as [w4|e w4];
      cbn [final_world] in *; [|exact K4].
    apply (kept_trans f _ w4 _ K4). now apply kept_same_dir.
  - now apply kept_same_dir.
Qed.

Lemma generate_navigation_keeps_files_witness :
  In "001-intro.html"
     (dir_files
        (w_dir (final_world
                  (generate_navigation blank_templates "Deck" None true true
                     true (fresh_world deck_dir)))))
  /\ dir_read
       (w_dir (final_world
                 (generate_navigation blank_templates "Deck" None true true
                    true (fresh_world deck_dir)))) "001-intro.html"
     = dir_read (w_dir (fresh_world deck_dir)) "001-intro.html".
Proof.
  apply (generate_navigation_keeps_files blank_templates "Deck" true true
           true (fresh_world deck_dir) "001-intro.html").
  - right. right. right. left. reflexivity.
  - discriminate.
  - discriminate.
Defined.

(* ================================================================== *)
(** * [generate_navigation] on a directory with slides *)
(* ================================================================== *)

Lemma no_write_filter (es : list event) :
  existsb is_write es = false -> filter is_write es = [].
Proof.
  induction es as [|e r IH]; cbn; [reflexivity|].
  destruct (is_write e); [discriminate|]. exact IH.
Qed.

Lemma echoes_no_write {A : Type} (g : A -> event) (l : list A) :
  (forall x, is_write (g x) = false) ->
  existsb is_write (map g l) = false.
Proof.
  intros H. induction l as [|x r IH]; cbn; [reflexivity|].
  now rewrite H, IH.
Qed.

Lemma writes_echoes (w : World) (es : list event) :
  existsb is_write es = false -> writes (append_events w es) = writes w.
Proof.
  intros H. unfold writes, append_events. cbn [w_trace].
  now rewrite filter_app, (no_write_filter es H), app_nil_r.
Qed.

Lemma write_file_listed (d : Dir) (l : list string) (name content : string) :
  dir_listing d = Some l -> valid_name name = true ->
  exists d', write_file d name content = Some d'.
Proof. intros L V. unfold write_file. rewrite L, V. now eexists. Qed.

Lemma well_formed_listed (d : Dir) :
  filter well_formed_name (dir_files d) <> [] ->
  (exists l, dir_listing d = Some l)
  /\ filter is_html_file (dir_files d) <> []
  /\ fst (discover_slides d) <> [].
Proof.
  intros H. split; [|split].
  - unfold dir_files in H. destruct (dir_listing d) as [l|];
      [now exists l | now elim H].
  - intros E. apply H. rewrite <- filter_well_formed_html, E. reflexivity.
  - intros E. pose proof (discover_slides_filenames_perm d) as P.
    rewrite E in P. apply Permutation_nil in P. now apply H.
Qed.

(** With a slide in the directory the run comes down to writing the
    page, then the metadata, then the summary. *)
Lemma generate_navigation_with_slides (tpl : Templates) (page_title : string)
    (output : option string) (create_samples metadata verbose : bool)
    (w : World) :
  filter well_formed_name (dir_files (w_dir w)) <> [] ->
  exists w2,
    w_dir w2 = w_dir w /\ w_writable w2 = w_writable w
    /\ writes w2 = writes w
    /\ generate_navigation tpl page_title output create_samples metadata
         verbose w
       = match write_output output
                 (create_navigation_html tpl (fst (discover_slides (w_dir w)))
                    page_title (w_dir w)) w2 with
         | Raised e w' => Raised e w'
         | Returned w3 =>
             match (if metadata
                    then save_slide_metadata tpl
                           (fst (discover_slides (w_dir w)))
                           (append_events w3
                              [Echo false (MsgGenerated output)])
                    else Returned
                           (append_events w3
                              [Echo false (MsgGenerated output)])) with
             | Raised e w' => Raised e w'
             | Returned w4 =>
                 Returned
                   (append_events w4
                      (Echo false (MsgSuccess output)
                       :: Echo false
                            (MsgFoundTotal
                               (List.length (fst (discover_slides (w_dir w)))))
                       :: map (fun p => Echo false
                                          (MsgSectionCount (fst p) (snd p)))
                              (section_breakdown
                                 (fst (discover_slides (w_dir w))))))
             end
         end.
Proof.
  intros H. destruct (well_formed_listed _ H) as [[l L] [Hh Hs]].
  unfold generate_navigation.
  set (w0 := if verbose then append_events (set_dir w (mkdir (w_dir w))) _
             else set_dir w (mkdir (w_dir w))).
  assert (P0 : w_dir w0 = w_dir w /\ w_writable w0 = w_writable w
               /\ writes w0 = writes w).
  { subst w0. rewrite (mkdir_existing _ l L).
    destruct verbose; repeat split; try reflexivity;
      destruct w; unfold writes; cbn; rewrite ?filter_app; cbn;
      now rewrite ?app_nil_r. }
  destruct P0 as [D0 [A0 T0]]. clearbody w0. rewrite <- D0 in Hh.
  destruct (filter is_html_file (dir_files (w_dir w0))) as [|h hs];
    [now elim Hh|]. clear Hh. cbv beta iota. rewrite D0.
  pose proof (discover_slides_echoes (w_dir w)) as He.
  destruct (discover_slides (w_dir w)) as [slides echoed].
  cbn [fst snd] in *. destruct slides as [|s0 rest]; [now elim Hs|].
  cbv beta iota zeta. set (slides := s0 :: rest).
  set (w2 := if verbose then append_events (append_events w0 echoed) _
             else append_events w0 echoed).
  assert (P2 : w_dir w2 = w_dir w /\ w_writable w2 = w_writable w
               /\ writes w2 = writes w).
  { subst w2. destruct verbose.
    - repeat split; try assumption.
      rewrite writes_echoes; [now rewrite writes_echoes|].
      cbn [existsb is_write orb]. apply echoes_no_write. reflexivity.
    - repeat split; try assumption. now rewrite writes_echoes. }
  destruct P2 as [D2 [A2 T2]]. clearbody w2. exists w2. rewrite D2.
  repeat split; assumption || reflexivity.
Qed.

Lemma write_in_dir_ok (w : World) (l : list string) (name content : string) :
  dir_listing (w_dir w) = Some l -> valid_name name = true ->
  exists w',
    write_in_dir w name content = Returned w'
    /\ dir_read (w_dir w') name = Some content
    /\ In name (dir_files (w_dir w'))
    /\ (forall f, f <> name -> dir_read (w_dir w') f = dir_read (w_dir w) f)
    /\ (forall f, In f (dir_files (w_dir w)) -> In f (dir_files (w_dir w')))
    /\ (forall e, In e (w_trace w) -> In e (w_trace w'))
    /\ w_writable w' = w_writable w
    /\ exists l', dir_listing (w_dir w') = Some l'.
Proof.
  intros L V. unfold write_in_dir.
  destruct (write_file_listed (w_dir w) l name content L V) as [d' W].
  rewrite W. eexists. split; [reflexivity|].
  destruct (write_file_inv _ _ _ _ W) as [l0 [L0 [_ [L' [Rd Ro]]]]].
  rewrite L in L0. injection L0 as <-.
  cbn [w_dir w_trace w_writable append_events set_dir]. unfold dir_files.
  rewrite L, L'. repeat split; try assumption.
  - destruct (mem_name name l) eqn:M; [now apply mem_name_in|].
    apply in_or_app. right. now left.
  - intros f H. destruct (mem_name name l); [exact H|].
    apply in_or_app. now left.
  - intros e H. apply in_or_app. now left.
  - now eexists.
Qed.

Lemma save_slide_metadata_ok (tpl : Templates) (slides : list Slide)
    (w : World) (l : list string) :
  dir_listing (w_dir w) = Some l ->
  exists w',
    save_slide_metadata tpl slides w = Returned w'
    /\ dir_read (w_dir w') "slides_metadata.json"
       = Some (metadata_text tpl slides)
    /\ In "slides_metadata.json" (dir_files (w_dir w'))
    /\ (forall f, f <> "slides_metadata.json" ->
                  dir_read (w_dir w') f = dir_read (w_dir w) f)
    /\ (forall f, In f (dir_files (w_dir w)) -> In f (dir_files (w_dir w')))
    /\ (forall e, In e (w_trace w) -> In e (w_trace w')).
Proof.
  intros L. unfold save_slide_metadata.
  destruct (write_in_dir_ok w l "slides_metadata.json"
              (metadata_text tpl slides) L eq_refl)
    as [w' [W [R [I [Ro [Io [T _]]]]]]].
  rewrite W. eexists. split; [reflexivity|].
  cbn [w_dir w_trace append_events]. repeat split; try assumption.
  intros e H. apply in_or_app. left. now apply T.
Qed.

(** X9.  On a directory with at least one slide name, and an output
    path that can be opened, [generate_navigation] returns; the page it
    built from the discovered slides is where [--output] asks for it
    ([index.html] in the slide directory by default); with [--metadata]
    the metadata file is written beside the slides; and the line that
    reports success is echoed. *)
Theorem navigation_page_is_written (tpl : Templates) (page_title : string)
    (output : option string) (create_samples metadata verbose : bool)
    (w : World) :
  filter well_formed_name (dir_files (w_dir w)) <> [] ->
  (forall path, output = Some path -> w_writable w path = true) ->
  exists w',
    generate_navigation tpl page_title output create_samples metadata
      verbose w = Returned w'
    /\ page_written output
         (create_navigation_html tpl (fst (discover_slides (w_dir w)))
            page_title (w_dir w)) w'
    /\ (metadata = true ->
        dir_read (w_dir w') "slides_metadata.json"
        = Some (metadata_text tpl (fst (discover_slides (w_dir w))))
        /\ In "slides_metadata.json" (dir_files (w_dir w')))
    /\ In (Echo false (MsgSuccess output)) (w_trace w').
Proof.
  intros H Hw.
  destruct (generate_navigation_with_slides tpl page_title output
              create_samples metadata verbose w H) as [w2 [D2 [A2 [_ G]]]].
  rewrite G. clear G.
  destruct (well_formed_listed _ H) as [[l L] _].
  set (slides := fst (discover_slides (w_dir w))).
  set (html := create_navigation_html tpl slides page_title (w_dir w)).
  assert (W : exists w3 l3,
             write_output output html w2 = Returned w3
             /\ dir_listing (w_dir w3) = Some l3
             /\ page_written output html w3).
  { unfold write_output, page_written. destruct output as [path|].
    - rewrite A2, (Hw path eq_refl). exists (append_events w2 [Wrote false path html]), l.
      cbn [w_dir w_trace append_events]. rewrite D2.
      repeat split; [exact L|].
      apply in_or_app. right. now left.
    - rewrite <- D2 in L.
      destruct (write_in_dir_ok w2 l "index.html" html L eq_refl)
        as [w3 [W [R [I [_ [_ [_ [_ [l3 L3]]]]]]]]].
      exists w3, l3. repeat split; assumption. }
  destruct W as [w3 [l3 [W [L3 P]]]]. rewrite W.
  destruct metadata.
  - destruct (save_slide_metadata_ok tpl slides
                (append_events w3 [Echo false (MsgGenerated output)]) l3 L3)
      as [w4 [S [R [I [Ro [Io T]]]]]].
    rewrite S. eexists. split; [reflexivity|].
    cbn [w_dir w_trace append_events]. repeat split; try assumption.
    + unfold page_written in *. destruct output as [path|].
      * cbn [w_trace append_events]. apply in_or_app. left. apply T.
        cbn [w_trace append_events]. apply in_or_app. now left.
      * cbn [w_dir append_events]. destruct P as [Pr Pi]. split.
        -- rewrite Ro by discriminate. exact Pr.
        -- now apply Io.
    + apply in_or_app. right. now left.
  - eexists. split; [reflexivity|].
    cbn [w_dir w_trace append_events]. repeat split.
    + unfold page_written in *. destruct output as [path|].
      * cbn [w_trace append_events]. apply in_or_app. left.
        apply in_or_app. now left.
      * exact P.
    + discriminate.
    + discriminate.
    + apply in_or_app. right. now left.
Qed.

Lemma navigation_page_is_written_witness :
  exists w',
    generate_navigation blank_templates "Deck" (Some "nav.html") true true
      true (fresh_world deck_dir) = Returned w'
    /\ page_written (Some "nav.html")
         (create_navigation_html blank_templates
            (fst (discover_slides (w_dir (fresh_world deck_dir))))
            "Deck" (w_dir (fresh_world deck_dir))) w'
    /\ (true = true ->
        dir_read (w_dir w') "slides_metadata.json"
        = Some (metadata_text blank_templates
                  (fst (discover_slides (w_dir (fresh_world deck_dir)))))
        /\ In "slides_metadata.json" (dir_files (w_dir w')))
    /\ In (Echo false (MsgSuccess (Some "nav.html"))) (w_trace w').
Proof.
  apply (navigation_page_is_written blank_templates "Deck" (Some "nav.html")
           true true true (fresh_world deck_dir)).
  - intros E. vm_compute in E. discriminate E.
  - intros path _. reflexivity.
Defined.

(** X10.  When the path given with [--output] cannot be opened, a run
    on a directory with slides raises [OSError] at the write: nothing
    has been written, neither the page nor the metadata, and the slide
    directory is as it was. *)
Theorem unwritable_output_raises (tpl : Templates) (page_title path : string)
    (create_samples metadata verbose : bool) (w : World) :
  filter well_formed_name (dir_files (w_dir w)) <> [] ->
  w_writable w path = false ->
  exists w',
    generate_navigation tpl page_title (Some path) create_samples metadata
      verbose w = Raised OSError w'
    /\ w_dir w' = w_dir w
    /\ writes w' = writes w.
Proof.
  intros H Hw.
  destruct (generate_navigation_with_slides tpl page_title (Some path)
              create_samples metadata verbose w H) as [w2 [D2 [A2 [T2 G]]]].
  rewrite G. unfold write_output. rewrite A2, Hw. now exists w2.
Qed.

Lemma unwritable_output_raises_witness :
  exists w',
    generate_navigation blank_templates "Deck" (Some "/nav.html") false true
      false (mkWorld deck_dir (fun _ => false) []) = Raised OSError w'
    /\ w_dir w' = w_dir (mkWorld deck_dir (fun _ => false) [])
    /\ writes w' = writes (mkWorld deck_dir (fun _ => false) []).
Proof.
  apply (unwritable_output_raises blank_templates "Deck" "/nav.html" false
           true false (mkWorld deck_dir (fun _ => false) [])).
  - intros E. vm_compute in E. discriminate E.
  - reflexivity.
Defined.

(* ================================================================== *)
(** * Seeding the directory with the samples *)
(* ================================================================== *)









(* ================================================================== *)
(** * The characters of a generated file name *)
(* ================================================================== *)

Lemma forall_chars_and (p q : ascii -> bool) (s : string) :
  PyStr.forall_chars (fun c => p c && q c) s
  = PyStr.forall_chars p s && PyStr.forall_chars q s.
Proof.
  induction s as [|c r IH]; [reflexivity|]. cbn. rewrite IH.
  destruct (p c), (q c), (PyStr.forall_chars p r); reflexivity.
Qed.

Lemma lower_char_not_upper (c : ascii) :
  PyStr.is_upper (PyStr.lower_char c) = false.
Proof.
  unfold PyStr.lower_char. destruct (PyStr.is_upper c) eqn:U; [|exact U].
  unfold PyStr.is_upper in *. apply andb_true_iff in U. destruct U as [Lo Hi].
  apply Nat.leb_le in Lo. apply Nat.leb_le in Hi.
  rewrite nat_ascii_embedding by lia. apply andb_false_iff. right.
  apply Nat.leb_gt. lia.
Qed.

Lemma lower_not_upper (s : string) :
  PyStr.forall_chars (fun c => negb (PyStr.is_upper c)) (PyStr.lower s) = true.
Proof.
  induction s as [|c r IH]; [reflexivity|].
  change (PyStr.lower (String c r))
    with (String (PyStr.lower_char c) (PyStr.lower r)).
  cbn [PyStr.forall_chars]. now rewrite lower_char_not_upper, IH.
Qed.

(** Replacing every occurrence of a character removes the character. *)
Lemma replace_char_removes (c : ascii) (new : string) :
  lacks c new = true ->
  forall s, lacks c (PyStr.replace_from 0 (String c "") new s) = true.
Proof.
  intros Hn. unfold lacks in *. induction s as [|x r IH]; [reflexivity|].
  cbn [PyStr.replace_from String.length Nat.sub].
  destruct (String.prefix (String c "") (String x r)) eqn:P.
  - now rewrite forall_chars_append, Hn.
  - cbn [PyStr.forall_chars]. rewrite IH, andb_true_r.
    apply negb_true_iff, Ascii.eqb_neq. intros ->. cbn in P.
    destruct (ascii_dec c c); [destruct r; discriminate | contradiction].
Qed.

Lemma digits_and_sign (q : ascii -> bool) (n : Z) :
  (forall c, PyStr.is_digit c = true -> q c = true) -> q "-"%char = true ->
  PyStr.forall_chars q (PyStr.format_03d n) = true.
Proof.
  intros Hd Hm.
  assert (D : forall m, PyStr.forall_chars q (PyStr.dec m) = true).
  { intro m. apply (forall_chars_impl PyStr.is_digit); [exact Hd|].
    apply dec_fuel_digits. }
  assert (Z0 : forall k, PyStr.forall_chars q (PyStr.zeros k) = true).
  { induction k as [|k IH]; [reflexivity|]. cbn [PyStr.zeros PyStr.forall_chars].
    rewrite IH, andb_true_r. now apply Hd. }
  unfold PyStr.format_03d. destruct (n <? 0); cbv zeta.
  - cbn [PyStr.forall_chars]. now rewrite forall_chars_append, Z0, D, Hm.
  - now rewrite forall_chars_append, Z0, D.
Qed.

(** X12.  The name under which [create_slide] writes a slide has no
    space, no ampersand and no upper-case letter, whatever the title
    and the ordinal. *)
Theorem created_file_name_characters (n : Z) (page_title : string) :
  PyStr.forall_chars slug_char
    (slide_filename (PyStr.format_03d n) page_title) = true.
Proof.
  unfold slide_filename. rewrite !forall_chars_append.
  rewrite (digits_and_sign slug_char n);
    [| apply digit_ind; reflexivity | reflexivity].
  cbn [andb]. rewrite andb_true_r.
  set (s1 := PyStr.lower page_title).
  set (s2 := PyStr.replace " " "-" s1).
  assert (U1 : PyStr.forall_chars (fun c => negb (PyStr.is_upper c)) s1 = true)
    by apply lower_not_upper.
  assert (U2 : PyStr.forall_chars (fun c => negb (PyStr.is_upper c)) s2 = true)
    by (apply replace_from_plain; [reflexivity | exact U1]).
  assert (S2 : lacks " " s2 = true) by (now apply replace_char_removes).
  assert (U3 : PyStr.forall_chars (fun c => negb (PyStr.is_upper c))
                 (PyStr.replace "&" "and" s2) = true)
    by (apply replace_from_plain; [reflexivity | exact U2]).
  assert (S3 : lacks " " (PyStr.replace "&" "and" s2) = true)
    by (apply replace_from_plain; [reflexivity | exact S2]).
  assert (A3 : lacks "&" (PyStr.replace "&" "and" s2) = true)
    by (now apply replace_char_removes).
  unfold slug_char. rewrite !forall_chars_and. unfold lacks in *.
  now rewrite S3, A3, U3.
Qed.

(* ================================================================== *)
(** * From the title to the slug and back *)
(* ================================================================== *)

Lemma prefix_char (a x : ascii) (r : string) :
  String.prefix (String a "") (String x r) = (a =? x)%char.
Proof.
  cbn. destruct (ascii_dec a x) as [->|N].
  - rewrite Ascii.eqb_refl. now destruct r.
  - symmetry. now apply Ascii.eqb_neq.
Qed.

(** Replacing a word that does not occur changes nothing. *)
Lemma replace_absent (o : ascii) (old' new : string) :
  forall s, PyStr.contains (String o old') s = false ->
            PyStr.replace_from 0 (String o old') new s = s.
Proof.
  induction s as [|x r IH]; intros H; [reflexivity|].
  cbn [PyStr.contains] in H. apply orb_false_iff in H. destruct H as [P C].
  cbn [PyStr.replace_from]. rewrite P. now rewrite IH.
Qed.

Lemma lacks_contains (c : ascii) (w' s : string) :
  lacks c s = true -> PyStr.contains (String c w') s = false.
Proof.
  unfold lacks. induction s as [|x r IH]; intros H; [reflexivity|].
  cbn [PyStr.forall_chars] in H. apply andb_true_iff in H. destruct H as [N L].
  cbn [PyStr.contains]. rewrite (IH L), orb_false_r. cbn.
  destruct (ascii_dec c x) as [->|]; [|reflexivity].
  now rewrite Ascii.eqb_refl in N.
Qed.

(** Putting [b] for every [a] and then [a] for every [b] gives back a
    text without [b]. *)
Lemma replace_char_back (a b : ascii) :
  forall s, lacks b s = true ->
    PyStr.replace_from 0 (String b "") (String a "")
      (PyStr.replace_from 0 (String a "") (String b "") s) = s.
Proof.
  unfold lacks. induction s as [|x r IH]; intros H; [reflexivity|].
  cbn [PyStr.forall_chars] in H. apply andb_true_iff in H. destruct H as [N L].
  cbn [PyStr.replace_from String.length Nat.sub]. rewrite prefix_char.
  destruct (Ascii.eqb_spec a x) as [->|Na].
  - cbn [String.append PyStr.replace_from String.length Nat.sub].
    rewrite prefix_char, Ascii.eqb_refl. cbn [String.append]. now rewrite IH.
  - cbn [PyStr.replace_from]. rewrite prefix_char.
    apply negb_true_iff in N. rewrite Ascii.eqb_sym, N. now rewrite IH.
Qed.

Lemma lower_char_lacks (c x : ascii) :
  PyStr.is_lower c = false -> (x =? c)%char = false ->
  (PyStr.lower_char x =? c)%char = false.
Proof.
  intros Hc Hx. unfold PyStr.lower_char.
  destruct (PyStr.is_upper x) eqn:U; [|exact Hx].
  apply Ascii.eqb_neq. intros E. subst c.
  unfold PyStr.is_upper, PyStr.is_lower in *.
  apply andb_true_iff in U. destruct U as [Lo Hi].
  apply Nat.leb_le in Lo. apply Nat.leb_le in Hi.
  rewrite nat_ascii_embedding in Hc by lia.
  apply andb_false_iff in Hc. destruct Hc as [Hc|Hc];
    apply Nat.leb_gt in Hc; lia.
Qed.

Lemma lower_lacks (c : ascii) (s : string) :
  PyStr.is_lower c = false -> lacks c s = true ->
  lacks c (PyStr.lower s) = true.
Proof.
  intros Hc. unfold lacks. induction s as [|x r IH]; intros H; [reflexivity|].
  cbn [PyStr.forall_chars] in H. apply andb_true_iff in H. destruct H as [N L].
  change (PyStr.lower (String x r))
    with (String (PyStr.lower_char x) (PyStr.lower r)).
  cbn [PyStr.forall_chars]. rewrite (IH L), andb_true_r.
  apply negb_true_iff. apply lower_char_lacks; [exact Hc|].
  now apply negb_true_iff.
Qed.

Lemma case_of_lower_char (c : ascii) :
  PyStr.lower_char (PyStr.lower_char c) = PyStr.lower_char c
  /\ PyStr.upper_char (PyStr.lower_char c) = PyStr.upper_char c
  /\ PyStr.is_cased (PyStr.lower_char c) = PyStr.is_cased c.
Proof.
  destruct c as [[] [] [] [] [] [] [] []]; vm_compute; repeat split.
Qed.

(** [title] does not depend on the case of its argument. *)
Lemma title_from_lower :
  forall s prev, PyStr.title_from prev (PyStr.lower s) = PyStr.title_from prev s.
Proof.
  induction s as [|c r IH]; intros prev; [reflexivity|].
  change (PyStr.lower (String c r))
    with (String (PyStr.lower_char c) (PyStr.lower r)).
  cbn [PyStr.title_from].
  destruct (case_of_lower_char c) as [L [U C]]. now rewrite L, U, C, IH.
Qed.

(** X16.  For a title in title case, in code points below 128, without
    hyphen, ampersand or the letters [and] in a row, the title that
    discovery derives from the slug of the file name [create_slide]
    chooses is the title the slide was created with. *)
Theorem slug_title_recovers_title (num t : string) :
  simple_title t = true ->
  slide_filename num t = num ++ "-" ++ slug_of t ++ ".html"
  /\ slug_title (slug_of t) = t.
Proof.
  intros H. split; [reflexivity|]. revert H.
  unfold simple_title. rewrite !andb_true_iff, negb_true_iff.
  intros [[[[_ T] H] A] N]. apply String.eqb_eq in T.
  unfold slug_of, slug_title, PyStr.replace.
  assert (A1 : lacks "&" (PyStr.replace_from 0 " " "-" (PyStr.lower t)) = true).
  { apply replace_from_plain; [reflexivity|].
    now apply lower_lacks. }
  rewrite (replace_absent "&" "" "and") by (now apply lacks_contains).
  rewrite (replace_char_back " " "-") by (now apply lower_lacks).
  rewrite (replace_absent "a" "nd" "&") by exact N.
  unfold PyStr.title in *. now rewrite title_from_lower.
Qed.

Lemma slug_title_recovers_title_witness :
  slide_filename "002" "Quick Setup" = "002" ++ "-" ++ slug_of "Quick Setup" ++ ".html"
  /\ slug_title (slug_of "Quick Setup") = "Quick Setup".
Proof.
  apply (slug_title_recovers_title "002" "Quick Setup"). reflexivity.
Defined.

(* ================================================================== *)
(** * The body of a slide in the PDF export *)
(* ================================================================== *)


Lemma forall_any (s : string) : PyStr.forall_chars any_char s = true.
Proof. induction s as [|c r IH]; [reflexivity | exact IH]. Qed.




Lemma create_slide_template_container (tpl : Templates)
    (page_title content : string) (sec : option string) :
  create_slide_template tpl page_title content sec
  = template_before_body tpl page_title ++ container_open ++ ">"
      ++ template_body content sec ++ "</div>" ++ nl ++ "</body>" ++ nl
      ++ "</html>".
Proof.
  unfold create_slide_template, template_before_body, template_head,
    template_body, container_open, quoted, nl.
  norm_append. reflexivity.
Qed.

(** ** Where a word can occur *)

Lemma prefix_stop (x : ascii) :
  forall W, lacks x W = true ->
  forall b s, String.prefix W (b ++ String x s) = true ->
              String.prefix W b = true.
Proof.
  unfold lacks. induction W as [|y W IH]; intros L b s H.
  - now destruct b.
  - cbn [PyStr.forall_chars] in L. apply andb_true_iff in L.
    destruct L as [Ly L]. destruct b as [|z b]; cbn in H |- *.
    + destruct (ascii_dec y x) as [->|]; [|discriminate].
      now rewrite Ascii.eqb_refl in Ly.
    + destruct (ascii_dec y z); [|discriminate]. now apply (IH L b s).
Qed.

Lemma contains_step_false (W : string) (x : ascii) (s : string) :
  String.prefix W (String x s) = false ->
  PyStr.contains W (String x s) = PyStr.contains W s.
Proof. intros H. cbn [PyStr.contains]. now rewrite H. Qed.

(** A word without [x] that does not occur in [a] does not start in [a]
    when [x] follows. *)
Lemma contains_stop (W : string) (x : ascii) :
  lacks x W = true ->
  forall a s, PyStr.contains W a = false ->
              PyStr.contains W (a ++ String x s)
              = PyStr.contains W (String x s).
Proof.
  intros L. induction a as [|z a IH]; intros s H; [reflexivity|].
  cbn [PyStr.contains] in H. apply orb_false_iff in H. destruct H as [P C].
  change (String z a ++ String x s) with (String z (a ++ String x s)).
  rewrite contains_step_false; [now apply IH|].
  destruct (String.prefix W (String z (a ++ String x s))) eqn:Q;
    [|reflexivity].
  apply (prefix_stop x W L (String z a) s) in Q. congruence.
Qed.

(** The same when the first character of the word follows, if it does
    not come back in the word. *)
Lemma contains_stop_first (W : string) (c : ascii) (w' : string) :
  W = String c w' -> lacks c w' = true ->
  forall a s, PyStr.contains W a = false ->
              PyStr.contains W (a ++ String c s)
              = PyStr.contains W (String c s).
Proof.
  intros -> L. induction a as [|z a IH]; intros s H; [reflexivity|].
  pose proof (contains_tail _ _ _ H) as C.
  change (String z a ++ String c s) with (String z (a ++ String c s)).
  rewrite contains_step_false; [now apply IH|].
  apply (word_not_at_suffix c w' L (String z a) "" (String z a) s);
    [assumption | reflexivity | discriminate].
Qed.

Lemma contains_suffix (W a b : string) :
  PyStr.contains W (a ++ b) = false -> PyStr.contains W b = false.
Proof.
  intros H. destruct (PyStr.contains W b) eqn:E; [|reflexivity].
  apply contains_iff in E. destruct E as [u [v E]].
  assert (Q : PyStr.contains W (a ++ b) = true).
  { apply contains_iff. exists (a ++ u), v. rewrite E. now norm_append. }
  congruence.
Qed.

(** Two places where a word occurs for the first time are the same
    place. *)
Lemma first_occurrence_unique (c : ascii) (w' : string) :
  lacks c w' = true ->
  forall U V t1 t2,
    PyStr.contains (String c w') U = false ->
    PyStr.contains (String c w') V = false ->
    U ++ String c w' ++ t1 = V ++ String c w' ++ t2 -> U = V.
Proof.
  intros L. induction U as [|x U IH]; intros V t1 t2 HU HV E.
  - destruct V as [|z V]; [reflexivity|]. exfalso.
    assert (P : String.prefix (String c w')
                  (String z V ++ String c (w' ++ t2)) = true).
    { apply prefix_iff. exists t1.
      change (String z V ++ String c (w' ++ t2))
        with (String z V ++ String c w' ++ t2).
      rewrite <- E. now norm_append. }
    rewrite (word_not_at_suffix c w' L (String z V) "" (String z V))
      in P; [discriminate | assumption | reflexivity | discriminate].
  - destruct V as [|z V].
    + exfalso.
      assert (P : String.prefix (String c w')
                    (String x U ++ String c (w' ++ t1)) = true).
      { apply prefix_iff. exists t2.
        change (String x U ++ String c (w' ++ t1))
          with (String x U ++ String c w' ++ t1).
        rewrite E. now norm_append. }
      rewrite (word_not_at_suffix c w' L (String x U) "" (String x U))
        in P; [discriminate | assumption | reflexivity | discriminate].
    + cbn [String.append] in E. injection E as -> E.
      f_equal. apply (IH V t1 t2); [| |exact E].
      * now apply contains_tail in HU.
      * now apply contains_tail in HV.
Qed.

Lemma split_common :
  forall P X Y Q,
    X ++ Y = P ++ Q -> (String.length P <= String.length X)%nat ->
    exists M, X = P ++ M /\ Q = M ++ Y.
Proof.
  induction P as [|p P IH]; intros X Y Q E L.
  - exists X. split; [reflexivity | now symmetry].
  - destruct X as [|x X]; [cbn in L; lia|].
    cbn [String.append] in E. injection E as -> E.
    cbn [String.length] in L. apply le_S_n in L.
    destruct (IH X Y Q E L) as [M [-> ->]]. now exists M.
Qed.

(** ** The end of the container *)

Lemma closing_pattern_inv pos s1 s2 c :
  matches closing_pattern pos s1 s2 c ->
  exists ws, s1 = "</div>" ++ ws ++ "</body>"
             /\ PyStr.forall_chars PyStr.is_space ws = true.
Proof.
  unfold closing_pattern. intro M.
  inversion M as [| |? ? ? ? ? ? ? ? Md M1| | | | |]; subst; clear M.
  apply (matches_lit_inv "</div>") in Md. destruct Md as [-> ->].
  inversion M1 as [| |? ? ? ? ? ? ? ? Mw Mc| | | | |]; subst; clear M1.
  inversion Mw; subst; clear Mw.
  apply (matches_lit_inv "</body>") in Mc. destruct Mc as [-> ->].
  eexists. split; [reflexivity | assumption].
Qed.

Lemma space_lacks_lt (ws : string) :
  PyStr.forall_chars PyStr.is_space ws = true -> lacks "<" ws = true.
Proof.
  apply forall_chars_impl. intros c H.
  destruct (Ascii.eqb_spec c "<") as [->|]; [discriminate H | reflexivity].
Qed.

(** Inside a body without [</body>] the end of the container is not
    found before the body is over. *)
Lemma closing_fails {R : Type} (b tail : string) pos caps (k : @cont R) :
  b <> "" ->
  PyStr.contains "</body>" (b ++ "</div>" ++ nl) = false ->
  run closing_pattern pos (b ++ "</div>" ++ nl ++ "</body>" ++ tail) caps k
  = None.
Proof.
  intros Hb Hc.
  destruct (run closing_pattern pos
              (b ++ "</div>" ++ nl ++ "</body>" ++ tail) caps k)
    as [y|] eqn:E; [exfalso | reflexivity].
  apply run_sound in E. destruct E as [s1 [s2 [c [Es [M _]]]]].
  apply closing_pattern_inv in M. destruct M as [ws [-> Hw]].
  assert (V : PyStr.contains "</body>" ("</div>" ++ ws) = false).
  { cbn [String.append].
    repeat (rewrite contains_step_false by reflexivity).
    now apply lacks_contains, space_lacks_lt. }
  assert (Q : b ++ "</div>" ++ nl = "</div>" ++ ws).
  { apply (first_occurrence_unique "<" "/body>" eq_refl _ _ tail s2 Hc V).
    revert Es. norm_append. now intros ->. }
  destruct (split_common "</div>" (b ++ "</div") (">" ++ nl) ws) as [m [_ Em]].
  - rewrite <- Q. now norm_append.
  - rewrite length_append. destruct b; [now elim Hb | cbn; lia].
  - rewrite Em, forall_chars_append in Hw. cbn in Hw.
    now rewrite andb_false_r in Hw.
Qed.

Lemma closing_succeeds {R : Type} (tail : string) pos caps (k : @cont R) y :
  k (pos + 14)%nat tail caps = Some y ->
  run closing_pattern pos ("</div>" ++ nl ++ "</body>" ++ tail) caps k
  = Some y.
Proof.
  intros Hk. unfold closing_pattern.
  rewrite run_seq, (run_lit_append "</div>"), run_seq.
  change (run (Star true PyStr.is_space) ?a ?b ?cs ?kk)
    with (star_greedy PyStr.is_space a b cs kk).
  apply (star_greedy_whole PyStr.is_space nl ("</body>" ++ tail));
    [reflexivity | reflexivity |].
  rewrite (run_lit_append "</body>"). rewrite <- Hk. f_equal.
  cbn [String.length nl]. lia.
Qed.

(** ** The body of a generated slide *)

Lemma container_read_back (head body tail : string) :
  PyStr.contains container_open head = false ->
  PyStr.contains "</body>" (body ++ "</div>" ++ nl) = false ->
  re_search container_pattern
    (head ++ container_open ++ ">" ++ body ++ "</div>" ++ nl ++ "</body>"
       ++ tail)
  = Some [body].
Proof.
  intros Hh Hb.
  set (w' := "div class=" ++ quoted "slide-container").
  set (s2 := "</div>" ++ nl ++ "</body>" ++ tail).
  set (rest := ">" ++ body ++ s2).
  unfold re_search, container_pattern.
  change container_open with (String "<" w') in *.
  change (String "<" w' ++ rest) with (String "<" (w' ++ rest)).
  rewrite (search_skips "<" w' _ eq_refl head 0) by assumption.
  set (pos := (0 + String.length head)%nat).
  assert (E : run (Seq (lit (String "<" w'))
                     (Seq (Star true not_gt)
                        (Seq (Chr ">")
                           (Seq (Group (Star false any_char))
                              closing_pattern))))
                  pos (String "<" w' ++ rest) []
                  (fun _ _ caps => Some caps)
              = Some [body]).
  { rewrite run_seq, (run_lit_append (String "<" w')), run_seq.
    change (run (Star true not_gt) ?a ?b ?cs ?kk)
      with (star_greedy not_gt a b cs kk).
    apply (star_greedy_whole not_gt "" rest); [reflexivity | reflexivity |].
    subst rest. change (">" ++ body ++ s2) with (String ">" (body ++ s2)).
    rewrite run_seq, run_chr, run_seq, run_group.
    change (run (Star false any_char) ?a ?b ?cs ?kk)
      with (star_lazy any_char a b cs kk).
    apply star_lazy_first; [apply forall_any | |].
    - intros a b Eab Hne. subst s2. apply closing_fails; [exact Hne|].
      apply (contains_suffix _ a). rewrite Eab, append_assoc in Hb. exact Hb.
    - subst s2. apply closing_succeeds.
      match goal with
      | |- Some ([] ++ [String.substring 0 ?n _])%list = _ =>
          replace n with (String.length body) by lia
      end.
      now rewrite substring_0_length. }
  cbn [search_from].
  change (String "<" (w' ++ rest)) with (String "<" w' ++ rest).
  fold closing_pattern. now rewrite E.
Qed.

Ltac skip_literal := repeat (rewrite contains_step_false by reflexivity).

Lemma before_body_lacks_container (tpl : Templates) (page_title : string) :
  PyStr.contains container_open page_title = false ->
  PyStr.contains container_open (base_styles tpl) = false ->
  PyStr.contains container_open (template_before_body tpl page_title) = false.
Proof.
  intros Ht Hs.
  unfold template_before_body, template_head, quoted, nl.
  norm_append. skip_literal.
  rewrite (contains_stop_first container_open "<"
             ("div class=" ++ quoted "slide-container") eq_refl eq_refl)
    by exact Ht.
  skip_literal.
  rewrite (contains_stop container_open PyStr.LF eq_refl) by exact Hs.
  skip_literal. reflexivity.
Qed.

Lemma template_body_lacks_end (content : string) (sec : option string) :
  PyStr.contains "</body>" content = false ->
  PyStr.contains "</body>" (section_text sec) = false ->
  PyStr.contains "</body>" (template_body content sec ++ "</div>" ++ nl)
  = false.
Proof.
  intros Hc Hs. unfold template_body.
  assert (T : PyStr.contains "</body>"
                (nl ++ "        " ++ content ++ nl ++ "    " ++ "</div>" ++ nl)
              = false).
  { unfold nl. cbn [String.append]. skip_literal.
    rewrite (contains_stop "</body>" PyStr.LF eq_refl) by exact Hc.
    skip_literal. reflexivity. }
  destruct sec as [[|c a]|]; cbn [section_badge section_text] in *.
  - unfold nl in *. norm_append. skip_literal. exact T.
  - set (s := String c a) in *. clearbody s.
    unfold quoted, nl in *. norm_append. skip_literal.
    rewrite (contains_stop_first "</body>" "<" "/body>" eq_refl eq_refl)
      by exact Hs.
    skip_literal. exact T.
  - unfold nl in *. norm_append. skip_literal. exact T.
Qed.

(** X13.  From a slide made by [create_slide_template] the PDF export
    takes exactly what the template put inside the container: the
    section badge and the content, provided the title and the styles
    do not themselves open a container and neither the content nor the
    section holds the end of the document body. *)
Theorem generated_slide_body (tpl : Templates) (page_title content : string)
    (sec : option string) :
  PyStr.contains container_open page_title = false ->
  PyStr.contains container_open (base_styles tpl) = false ->
  PyStr.contains "</body>" content = false ->
  PyStr.contains "</body>" (section_text sec) = false ->
  slide_body (create_slide_template tpl page_title content sec)
  = Some (template_body content sec).
Proof.
  intros Ht Hs Hc Ha. unfold slide_body.
  rewrite create_slide_template_container.
  rewrite (container_read_back (template_before_body tpl page_title)
             (template_body content sec) (nl ++ "</html>")).
  - reflexivity.
  - now apply before_body_lacks_container.
  - now apply template_body_lacks_end.
Qed.

Lemma generated_slide_body_witness :
  slide_body
    (create_slide_template blank_templates "011 - Prefect vs Airflow"
       "<div><h1>Compare</h1></div>" (Some "Appendix"))
  = Some (template_body "<div><h1>Compare</h1></div>" (Some "Appendix")).
Proof.
  apply (generated_slide_body blank_templates "011 - Prefect vs Airflow"
           "<div><h1>Compare</h1></div>" (Some "Appendix"));
    reflexivity.
Defined.

(** X15.  The default output of the PDF command is a plain file name:
    whatever the title, it has no path separator and no space and ends
    in [_slides.pdf], so the document is written in the current
    directory. *)
Theorem pdf_default_output_is_a_file_name (page_title : string) :
  lacks "/" (pdf_default_output page_title) = true
  /\ lacks " " (pdf_default_output page_title) = true
  /\ PyStr.endswith (pdf_default_output page_title) "_slides.pdf" = true.
Proof.
  unfold pdf_default_output, PyStr.replace.
  set (s1 := PyStr.replace_from 0 " " "_" (PyStr.lower page_title)).
  assert (S1 : lacks " " s1 = true) by (now apply replace_char_removes).
  assert (S2 : lacks " " (PyStr.replace_from 0 "/" "_" s1) = true)
    by (apply replace_from_plain; [reflexivity | exact S1]).
  assert (A2 : lacks "/" (PyStr.replace_from 0 "/" "_" s1) = true)
    by (now apply replace_char_removes).
  unfold lacks in *. rewrite !forall_chars_append, S2, A2.
  repeat split. apply endswith_iff. now eexists.
Qed.

(* ================================================================== *)
(** * The JSON strings of the page *)
(* ================================================================== *)

Lemma unescape_encode_char (a : ascii) (x : string) :
  unescape (Json.encode_char a ++ x) = option_map (String a) (unescape x).
Proof.
  destruct a as [[] [] [] [] [] [] [] []]; reflexivity.
Qed.

Lemma unescape_encode_chars (s : string) :
  unescape (Json.encode_chars s) = Some s.
Proof.
  induction s as [|c r IH]; [reflexivity|].
  cbn [Json.encode_chars]. now rewrite unescape_encode_char, IH.
Qed.

Lemma encode_char_printable (a : ascii) :
  PyStr.forall_chars printable (Json.encode_char a) = true.
Proof.
  destruct a as [[] [] [] [] [] [] [] []]; reflexivity.
Qed.

(** X17.  The JSON string written for a file name in the script of the
    page is made of printable ASCII characters only, and two different
    names never get the same string. *)
Theorem json_string_faithful (a b : string) :
  PyStr.forall_chars printable (Json.encode_string a) = true
  /\ (Json.encode_string a = Json.encode_string b -> a = b).
Proof.
  unfold Json.encode_string. split.
  - cbn [PyStr.forall_chars]. rewrite forall_chars_append.
    assert (P : PyStr.forall_chars printable (Json.encode_chars a) = true).
    { induction a as [|c r IH]; [reflexivity|].
      cbn [Json.encode_chars].
      now rewrite forall_chars_append, encode_char_printable, IH. }
    now rewrite P.
  - intros E. injection E as E. apply append_inv_tail in E.
    assert (Q : Some a = Some b)
      by (now rewrite <- (unescape_encode_chars a), E, unescape_encode_chars).
    now injection Q.
Qed.

(* ================================================================== *)
(** * Further concrete runs *)
(* ================================================================== *)

Lemma regeneration_is_stable_witness :
  exists w1 w2,
    generate_navigation blank_templates "Deck" None false true false
      (fresh_world deck_dir) = Returned w1
    /\ generate_navigation blank_templates "Deck" None false true false w1
       = Returned w2
    /\ discover_slides (w_dir w1)
       = discover_slides (mkdir (w_dir (fresh_world deck_dir)))
    /\ dir_read (w_dir w2) "index.html" = dir_read (w_dir w1) "index.html".
Proof.
  eexists. eexists.
  split; [vm_compute; reflexivity|]. split; [vm_compute; reflexivity|].
  apply (regeneration_is_stable blank_templates "Deck" true false
           (fresh_world deck_dir)); vm_compute; reflexivity.
Defined.

